(** * Uplink configuration manager (api/code/uplink.go)

    A shallow embedding of the WPA-supplicant and PPP uplink handlers: the
    field validators, the merge of a submitted record into the persisted
    collection, the template renderers for the daemon-facing files and the
    two HTTP handlers, followed by the properties established about them.

    Conventions of the embedding.
    - A Go [string] is a sequence of bytes: Rocq's [string].
    - A Go [error] result is an [option error]; [None] is [nil].
    - The package-level state touched by the handlers (the two JSON
      documents, the generated files, the calls made to the interface
      registry and to the plugin manager) is one [World] value passed
      explicitly.  The mutexes [WPAmtx] and [PPPmtx] serialise the handlers;
      the embedding is sequential, so they do not appear.  [log.Println]
      has no effect on the state and is left out.
    - [json.MarshalIndent] followed by [json.Unmarshal] is the identity on
      the two configuration structs (their strings come from a JSON decoder
      and are valid UTF-8), so a persisted document is kept as the value it
      encodes. *)

From Stdlib Require Import ZArith Ascii String List Bool.
From stdpp Require Import gmap strings list.

Set Default Proof Using "Type".
Set Warnings "-register-all".

(** ** Bytes given by their code: newline, tab, double quote *)

Definition nl : string := String "010"%char EmptyString.
Definition tab : string := String "009"%char EmptyString.
Definition dq : string := String "034"%char EmptyString.

(** ** Errors *)

Inductive error : Type :=
| Errorf (msg : string)                 (* fmt.Errorf / errors of this package *)
| ExecError (tmpl field ty : string)    (* text/template: can't evaluate field *)
| ParseError (tmpl : string)            (* text/template: parse failure *)
| PathError (path : string)             (* ioutil.WriteFile failure *)
| RegistryError (msg : string).         (* returned by updateInterfaceType *)

Definition Error (e : error) : string :=
  match e with
  | Errorf msg => msg
  | ExecError t f ty =>
      "template: " +:+ t +:+ ": can't evaluate field " +:+ f +:+ " in type " +:+ ty
  | ParseError t => "template: " +:+ t +:+ ": parse error"
  | PathError p => "open " +:+ p +:+ ": write failed"
  | RegistryError msg => msg
  end.

(** ** The parts of Go's standard library the handlers call *)

(** [strings.HasPrefix]. *)
Fixpoint strings_HasPrefix (s prefix : string) : bool :=
  match prefix, s with
  | EmptyString, _ => true
  | String _ _, EmptyString => false
  | String a p, String b s' => Ascii.eqb a b && strings_HasPrefix s' p
  end.

(** [strings.Contains]: [substr] occurs somewhere in [s]. *)
Fixpoint strings_Contains (s substr : string) : bool :=
  strings_HasPrefix s substr ||
  match s with
  | EmptyString => false
  | String _ s' => strings_Contains s' substr
  end.

(** [strings.Split(s, sep)] for a separator of one byte, the only way the
    package calls it: the pieces between the occurrences of [sep], in order;
    the empty string gives one empty piece. *)
Fixpoint strings_Split (s : string) (sep : ascii) : list string :=
  match s with
  | EmptyString => [EmptyString]
  | String c s' =>
      if Ascii.eqb c sep then EmptyString :: strings_Split s' sep
      else match strings_Split s' sep with
           | [] => [String c EmptyString]
           | part :: parts => String c part :: parts
           end
  end.

(** [strings.Join]. *)
Definition strings_Join (elems : list string) (sep : string) : string :=
  String.concat sep elems.

(** [strconv.Atoi] on a 64-bit platform: an optional sign, then one or more
    decimal digits, the value within the range of [int]. *)
Inductive NumError : Type := ErrSyntax | ErrRange.

Definition digit (c : ascii) : option Z :=
  let n := Z.of_nat (nat_of_ascii c) in
  if (48 <=? n)%Z && (n <=? 57)%Z then Some (n - 48)%Z else None.

Fixpoint digits (s : string) (acc : Z) : option Z :=
  match s with
  | EmptyString => Some acc
  | String c s' =>
      match digit c with
      | Some d => digits s' (acc * 10 + d)%Z
      | None => None
      end
  end.

Definition maxInt : Z := (2 ^ 63 - 1)%Z.
Definition minInt : Z := (- 2 ^ 63)%Z.

Definition strconv_Atoi (s : string) : NumError + Z :=
  match s with
  | EmptyString => inl ErrSyntax
  | String c rest =>
      let neg := Ascii.eqb c "-" in
      let body := if neg || Ascii.eqb c "+" then rest else s in
      match body with
      | EmptyString => inl ErrSyntax
      | _ =>
          match digits body 0 with
          | None => inl ErrSyntax
          | Some n =>
              let v := if neg then (- n)%Z else n in
              if (minInt <=? v)%Z && (v <=? maxInt)%Z then inr v else inl ErrRange
          end
      end
  end.

(** [regexp.MatchString] for the two patterns of the package.  Both are
    anchored with [^] and [$], so a match is a match of the whole string; the
    matcher works by derivatives. *)
Inductive regex : Type :=
| Never
| Empty
| Class (p : ascii -> bool)
| Cat (r s : regex)
| Alt (r s : regex)
| Star (r : regex).

Fixpoint nullable (r : regex) : bool :=
  match r with
  | Never => false
  | Empty => true
  | Class _ => false
  | Cat r s => nullable r && nullable s
  | Alt r s => nullable r || nullable s
  | Star _ => true
  end.

Fixpoint deriv (c : ascii) (r : regex) : regex :=
  match r with
  | Never | Empty => Never
  | Class p => if p c then Empty else Never
  | Cat r s =>
      if nullable r then Alt (Cat (deriv c r) s) (deriv c s)
      else Cat (deriv c r) s
  | Alt r s => Alt (deriv c r) (deriv c s)
  | Star r => Cat (deriv c r) (Star r)
  end.

Fixpoint regexp_MatchString (pattern : regex) (s : string) : bool :=
  match s with
  | EmptyString => nullable pattern
  | String c s' => regexp_MatchString (deriv c pattern) s'
  end.

(** [r{n}] *)
Fixpoint Rep (n : nat) (r : regex) : regex :=
  match n with
  | O => Empty
  | S n' => Cat r (Rep n' r)
  end.

Definition in_range (lo hi c : ascii) : bool :=
  (nat_of_ascii lo <=? nat_of_ascii c)%nat && (nat_of_ascii c <=? nat_of_ascii hi)%nat.

(** [[0-9A-Fa-f]] *)
Definition hexdigit (c : ascii) : bool :=
  in_range "0" "9" c || in_range "A" "F" c || in_range "a" "f" c.

(** [[a-zA-Z0-9]] *)
Definition alnum (c : ascii) : bool :=
  in_range "a" "z" c || in_range "A" "Z" c || in_range "0" "9" c.

(** The pattern "^([0-9A-Fa-f]{2}[:-]){5}([0-9A-Fa-f]{2})$". *)
Definition bssidPattern : regex :=
  Cat (Rep 5 (Cat (Rep 2 (Class hexdigit))
                  (Class (fun c => Ascii.eqb c ":" || Ascii.eqb c "-"))))
      (Rep 2 (Class hexdigit)).

(** The pattern for interface names: a run of [a-zA-Z0-9], then any number
    of groups made of a dot and a run of [a-zA-Z0-9], between [^] and [$]. *)
Definition ifacePattern : regex :=
  Cat (Star (Class alnum))
      (Star (Cat (Class (fun c => Ascii.eqb c ".")) (Star (Class alnum)))).

(** ** WPA supplicant support: data *)

Module WPANetwork.
Record t : Type := mk {
  Disabled : bool;
  Password : string;
  SSID : string;
  KeyMgmt : string;
  Priority : string;
  BSSID : string
}.
Definition set_KeyMgmt (k : string) (n : t) : t :=
  mk (Disabled n) (Password n) (SSID n) k (Priority n) (BSSID n).
End WPANetwork.
Abbreviation WPANetwork := WPANetwork.t.

Module WPAIface.
Record t : Type := mk {
  Iface : string;
  Enabled : bool;
  Networks : list WPANetwork
}.
Definition set_Enabled (b : bool) (w : t) : t := mk (Iface w) b (Networks w).
End WPAIface.
Abbreviation WPAIface := WPAIface.t.

Module WPASupplicantConfig.
Record t : Type := mk { WPAs : list WPAIface }.
End WPASupplicantConfig.
Abbreviation WPASupplicantConfig := WPASupplicantConfig.t.

(** Modelled from the spec: the struct [InterfaceConfig] is declared in a file
    of the package that is not part of the sources at hand; section 6 of the
    specification gives the interface registry's record as
    [{Name, Type, Subtype, Enabled, ...}], and these are the four fields
    [isWifiUplinkIfaceEnabled] and [isPPPUplinkIfaceEnabled] read. *)
Module InterfaceConfig.
Record t : Type := mk {
  Name : string;
  Type_ : string;
  Subtype : string;
  Enabled : bool
}.
End InterfaceConfig.
Abbreviation InterfaceConfig := InterfaceConfig.t.

(** ** WPA supplicant support: validation *)

(** The loop over the parts of [KeyMgmt] in [WPANetwork.Validate]. *)
Fixpoint validateKeyMgmtParts (parts : list string) : option error :=
  match parts with
  | [] => None
  | part :: rest =>
      if String.eqb part "WPA-PSK" then validateKeyMgmtParts rest
      else if String.eqb part "WPA-PSK-SHA256" then validateKeyMgmtParts rest
      else if String.eqb part "SAE" then validateKeyMgmtParts rest
      else Some (Errorf ("KeyMgmt field has invalid field " +:+ part))
  end.

Definition is_err {A B : Type} (r : A + B) : bool :=
  match r with inl _ => true | inr _ => false end.

(** [func (n *WPANetwork) Validate() error] *)
Definition WPANetwork_Validate (n : WPANetwork) : option error :=
  if strings_Contains (WPANetwork.Password n) nl then
    Some (Errorf "Password field contains newline characters")
  else if strings_Contains (WPANetwork.SSID n) nl then
    Some (Errorf "SSID field contains newline characters")
  else if negb (String.eqb (WPANetwork.Priority n) "")
          && is_err (strconv_Atoi (WPANetwork.Priority n)) then
    Some (Errorf "Priority field must contain numeric value")
  else if negb (String.eqb (WPANetwork.BSSID n) "")
          && negb (regexp_MatchString bssidPattern (WPANetwork.BSSID n)) then
    Some (Errorf "BSSID field must be a valid MAC address")
  else if String.eqb (WPANetwork.KeyMgmt n) "" then
    Some (Errorf "KeyMgmt field must be set (WPA-PSK WPA-PSK-SHA256 or WPA-PSK WPA-PSK-SHA256 SAE)")
  else validateKeyMgmtParts (strings_Split (WPANetwork.KeyMgmt n) " ").

(** [isWifiUplinkIfaceEnabled]: the first interface of that name decides. *)
Fixpoint isWifiUplinkIfaceEnabled (Name : string) (interfaces : list InterfaceConfig) : bool :=
  match interfaces with
  | [] => false
  | iface :: rest =>
      if String.eqb (InterfaceConfig.Name iface) Name then
        if String.eqb (InterfaceConfig.Type_ iface) "Uplink"
           && String.eqb (InterfaceConfig.Subtype iface) "wifi"
        then InterfaceConfig.Enabled iface
        else false
      else isWifiUplinkIfaceEnabled Name rest
  end.


(** ** PPP support: data *)

Module PPPIface.
Record t : Type := mk {
  Iface : string;
  Enabled : bool;
  Username : string;
  Secret : string;
  VLAN : string;
  MTU : string
}.
Definition set_Enabled (b : bool) (p : t) : t :=
  mk (Iface p) b (Username p) (Secret p) (VLAN p) (MTU p).
Definition set_Iface (i : string) (p : t) : t :=
  mk i (Enabled p) (Username p) (Secret p) (VLAN p) (MTU p).
End PPPIface.
Abbreviation PPPIface := PPPIface.t.

Module PPPConfig.
Record t : Type := mk { PPPs : list PPPIface }.
End PPPConfig.
Abbreviation PPPConfig := PPPConfig.t.

(** ** PPP support: validation *)

(** [func (p *PPPIface) Validate() error] *)
Definition PPPIface_Validate (p : PPPIface) : option error :=
  if String.eqb (PPPIface.Iface p) "" then
    Some (Errorf "Iface field empty")
  else if String.eqb (PPPIface.Username p) "" then
    Some (Errorf "Username field empty")
  else if strings_Contains (PPPIface.Username p) nl then
    Some (Errorf "Username field contains newline characters")
  else if strings_Contains (PPPIface.Secret p) nl then
    Some (Errorf "Secret field contains newline characters")
  else if negb (String.eqb (PPPIface.VLAN p) "")
          && is_err (strconv_Atoi (PPPIface.VLAN p)) then
    Some (Errorf "VLAN field must contain numeric value")
  else if negb (String.eqb (PPPIface.MTU p) "")
          && match strconv_Atoi (PPPIface.MTU p) with
             | inl _ => true
             | inr v => (v <? 0)%Z
             end then
    Some (Errorf "MTU field must contain numeric positive value")
  else None.

(** [isPPPUplinkIfaceEnabled]: the first interface of that name decides. *)
Fixpoint isPPPUplinkIfaceEnabled (Name : string) (interfaces : list InterfaceConfig) : bool :=
  match interfaces with
  | [] => false
  | iface :: rest =>
      if String.eqb (InterfaceConfig.Name iface) Name then
        if String.eqb (InterfaceConfig.Type_ iface) "Uplink"
           && String.eqb (InterfaceConfig.Subtype iface) "ppp"
        then InterfaceConfig.Enabled iface
        else false
      else isPPPUplinkIfaceEnabled Name rest
  end.

(** ** text/template

    The templates of the package use text, field actions, [if] with a field or
    with [not] of a field, and [range] over a field.  A parsed template is a
    [tmpl]; the data it is executed on is a [value], the view reflection gives
    of a struct. *)

Inductive value : Type :=
| VString (s : string)
| VBool (b : bool)
| VSlice (elems : list value)
| VStruct (ty : string) (fields : list (string * value)).

Inductive pipeline : Type :=
| Field (name : string)            (* .Name *)
| Not (arg : pipeline).            (* not arg *)

Inductive tmpl : Type :=
| Done
| Text (s : string) (next : tmpl)
| Print (p : pipeline) (next : tmpl)                 (* {{p}} *)
| If (p : pipeline) (body : tmpl) (next : tmpl)      (* {{if p}} body {{end}} *)
| Range (p : pipeline) (body : tmpl) (next : tmpl).  (* {{range p}} body {{end}} *)

Fixpoint lookupField (name : string) (fields : list (string * value)) : option value :=
  match fields with
  | [] => None
  | (f, v) :: rest => if String.eqb f name then Some v else lookupField name rest
  end.

Definition typeName (v : value) : string :=
  match v with
  | VString _ => "string"
  | VBool _ => "bool"
  | VSlice _ => "slice"
  | VStruct ty _ => ty
  end.

(** Evaluating [.name] on a struct that has no such field is an execution
    error (a map would give the zero value; a struct does not). *)
Definition evalField (t name : string) (dot : value) : error + value :=
  match dot with
  | VStruct ty fields =>
      match lookupField name fields with
      | Some v => inr v
      | None => inl (ExecError t name ty)
      end
  | _ => inl (ExecError t name (typeName dot))
  end.

(** The truth of a value, as [if] and [not] see it. *)
Definition truth (v : value) : bool :=
  match v with
  | VString s => negb (String.eqb s "")
  | VBool b => b
  | VSlice l => match l with [] => false | _ => true end
  | VStruct _ _ => true
  end.

Fixpoint evalPipeline (t : string) (p : pipeline) (dot : value) : error + value :=
  match p with
  | Field name => evalField t name dot
  | Not arg =>
      match evalPipeline t arg dot with
      | inl e => inl e
      | inr v => inr (VBool (negb (truth v)))
      end
  end.

(** What a field action prints.  The templates of the package print strings
    only; a slice or a struct is given no text here. *)
Definition printValue (v : value) : string :=
  match v with
  | VString s => s
  | VBool true => "true"
  | VBool false => "false"
  | VSlice _ | VStruct _ _ => ""
  end.

(** The iteration of [range]: the body on every element in turn, stopping at
    the first error. *)
Definition rangeLoop (body : value -> string * option error) : list value -> string * option error :=
  fix loop (elems : list value) : string * option error :=
    match elems with
    | [] => ("", None)
    | elem :: rest =>
        match body elem with
        | (out, Some e) => (out, Some e)
        | (out, None) =>
            match loop rest with
            | (out', err) => (out +:+ out', err)
            end
        end
    end.

(** [tmpl.Execute(&result, data)]: the bytes written to [result] and the
    error, if any.  Execution writes as it goes, so on an error the text
    produced so far is in the buffer. *)
Fixpoint Execute (name : string) (t : tmpl) (dot : value) : string * option error :=
  match t with
  | Done => ("", None)
  | Text s next =>
      match Execute name next dot with
      | (out, err) => (s +:+ out, err)
      end
  | Print p next =>
      match evalPipeline name p dot with
      | inl e => ("", Some e)
      | inr v =>
          match Execute name next dot with
          | (out, err) => (printValue v +:+ out, err)
          end
      end
  | If p body next =>
      match evalPipeline name p dot with
      | inl e => ("", Some e)
      | inr v =>
          match (if truth v then Execute name body dot else ("", None)) with
          | (out, Some e) => (out, Some e)
          | (out, None) =>
              match Execute name next dot with
              | (out', err) => (out +:+ out', err)
              end
          end
      end
  | Range p body next =>
      match evalPipeline name p dot with
      | inl e => ("", Some e)
      | inr (VSlice elems) =>
          match rangeLoop (Execute name body) elems with
          | (out, Some e) => (out, Some e)
          | (out, None) =>
              match Execute name next dot with
              | (out', err) => (out +:+ out', err)
              end
          end
      | inr v => ("", Some (ExecError name "range" (typeName v)))
      end
  end.

(** The structs as the template engine sees them. *)
Definition reflect_WPANetwork (n : WPANetwork) : value :=
  VStruct "main.WPANetwork"
    [("Disabled", VBool (WPANetwork.Disabled n));
     ("Password", VString (WPANetwork.Password n));
     ("SSID", VString (WPANetwork.SSID n));
     ("KeyMgmt", VString (WPANetwork.KeyMgmt n));
     ("Priority", VString (WPANetwork.Priority n));
     ("BSSID", VString (WPANetwork.BSSID n))].

Definition reflect_WPAIface (w : WPAIface) : value :=
  VStruct "main.WPAIface"
    [("Iface", VString (WPAIface.Iface w));
     ("Enabled", VBool (WPAIface.Enabled w));
     ("Networks", VSlice (map reflect_WPANetwork (WPAIface.Networks w)))].

Definition reflect_PPPIface (p : PPPIface) : value :=
  VStruct "main.PPPIface"
    [("Iface", VString (PPPIface.Iface p));
     ("Enabled", VBool (PPPIface.Enabled p));
     ("Username", VString (PPPIface.Username p));
     ("Secret", VString (PPPIface.Secret p));
     ("VLAN", VString (PPPIface.VLAN p));
     ("MTU", VString (PPPIface.MTU p))].

Definition reflect_PPPConfig (c : PPPConfig) : value :=
  VStruct "main.PPPConfig"
    [("PPPs", VSlice (map reflect_PPPIface (PPPConfig.PPPs c)))].

(** ** The templates of the package, parsed *)

(** The template of [writeWPAs].  The interface name is spliced into the
    template source before it is parsed; for a name without the action
    delimiter it is literal text.  [updateWpaSupplicantConfig], the only
    caller that brings in names, admits letters, digits and dots only. *)
Definition wpaNetworkBlock : tmpl :=
  Text (nl +:+ "      network={" +:+ nl +:+ "      " +:+ tab +:+ "ssid=" +:+ dq)
  (Print (Field "SSID")
  (Text (dq +:+ nl +:+ "      " +:+ tab +:+ "psk=" +:+ dq)
  (Print (Field "Password")
  (Text (dq +:+ nl +:+ "      " +:+ tab)
  (If (Field "Priority") (Text "priority=" (Print (Field "Priority") Done))
  (Text (nl +:+ "      " +:+ tab)
  (If (Field "BSSID") (Text "bssid=" (Print (Field "BSSID") Done))
  (Text (nl +:+ "        key_mgmt=")
  (Print (Field "KeyMgmt")
  (Text (nl +:+ "      }" +:+ nl +:+ "      ")
  Done)))))))))).

Definition wpaTemplate (iface : string) : tmpl :=
  Text ("# Note this is an autogenerated file" +:+ nl +:+
        "      ctrl_interface=DIR=/var/run/wpa_supplicant_" +:+ iface +:+ nl +:+
        "      ")
  (Range (Field "Networks")
     (Text (nl +:+ "      ")
     (If (Not (Field "Disabled")) wpaNetworkBlock
     (Text (nl +:+ "      ")
     Done)))
  Done).

(** [template.New("wpa_supplicant.conf").Parse(...)].  A name holding the
    left delimiter would be read as template source; the embedding gives no
    template for it. *)
Definition parseWpaTemplate (iface : string) : error + tmpl :=
  if strings_Contains iface "{{" then inl (ParseError "wpa_supplicant.conf")
  else inr (wpaTemplate iface).

(** The template "chap-secrets" of [writePPP]. *)
Definition chapSecretsTemplate : tmpl :=
  Text ("# Note this is an autogenerated file" +:+ nl +:+
        "    # Secrets for authentication using CHAP" +:+ nl +:+
        "    # client        server  secret                  IP addresses" +:+ nl +:+
        nl +:+
        "    ")
  (Range (Field "PPPs")
     (Text (nl +:+ "      " +:+ dq)
     (Print (Field "Username")
     (Text (dq +:+ " * " +:+ dq)
     (Print (Field "Secret")
     (Text (dq +:+ nl +:+ "    ")
     Done)))))
  (Text (nl +:+ "    ")
  Done)).

(** The template "provider" of [writePPP], action for action: the [mtu]
    line, the plugin line with the optional VLAN, then an action on [.BSSID],
    a second plugin line and the user line. *)
Definition providerTemplate : tmpl :=
  Text ("# Note this is an autogenerated file" +:+ nl +:+
        "      # Minimalistic default options file for DSL/PPPoE connections" +:+ nl +:+
        "      noipdefault" +:+ nl +:+
        "      defaultroute" +:+ nl +:+
        "      replacedefaultroute" +:+ nl +:+
        "      persist" +:+ nl +:+
        "      ")
  (If (Field "MTU") (Text "mtu " (Print (Field "MTU") Done))
  (Text (nl +:+ "      plugin rp-pppoe.so ")
  (Print (Field "Iface")
  (If (Field "VLAN") (Text "." (Print (Field "VLAN") Done))
  (Text (nl +:+ "      ")
  (If (Field "BSSID") (Text "bssid=" (Print (Field "BSSID") Done))
  (Text (nl +:+ "      plugin rp-pppoe.so ")
  (Print (Field "Iface")
  (Text "."
  (Print (Field "VLAN")
  (Text (nl +:+ "      user " +:+ dq)
  (Print (Field "Username")
  (Text (dq +:+ nl +:+ "      ")
  Done))))))))))))).

(** ** The world outside the package *)

(** The calls made to the interface registry and to the plugin manager. *)
Inductive Call : Type :=
| UpdateInterfaceType (Iface Type_ Subtype : string) (Enabled : bool)
| EnablePlugin (name : string)
| RestartPlugin (name : string).

(** What the package takes from its surroundings: the constant [TEST_PREFIX],
    which files can be written, and the answers of [updateInterfaceType] and
    [enablePlugin], both defined elsewhere in the package; their answers may
    depend on the calls made so far. *)
Record Env : Type := {
  TEST_PREFIX : string;
  writable : string -> bool;
  registryAnswer : list Call -> string -> string -> string -> bool -> error + list InterfaceConfig;
  pluginStarted : list Call -> string -> bool
}.

Record World : Type := mkWorld {
  wpa_json : option WPASupplicantConfig;   (* the document at WpaConfigPath *)
  ppp_json : option PPPConfig;             (* the document at PPPConfigPath *)
  files : gmap string string;              (* the generated files, by path *)
  calls : list Call                        (* the calls made, oldest first *)
}.

Definition set_wpa_json (c : option WPASupplicantConfig) (w : World) : World :=
  mkWorld c (ppp_json w) (files w) (calls w).
Definition set_ppp_json (c : option PPPConfig) (w : World) : World :=
  mkWorld (wpa_json w) c (files w) (calls w).
Definition set_files (f : gmap string string) (w : World) : World :=
  mkWorld (wpa_json w) (ppp_json w) f (calls w).
Definition add_call (c : Call) (w : World) : World :=
  mkWorld (wpa_json w) (ppp_json w) (files w) (calls w ++ [c]).

(** What a handler answers: [http.Error(w, msg, code)], or nothing written,
    which the server sends as 200. *)
Inductive Reply : Type :=
| HttpError (msg : string) (code : nat)
| HttpOK.

(** What a GET handler answers: [http.Error(w, msg, code)], or the document
    written by [json.NewEncoder(w).Encode]. *)
Inductive GetReply (A : Type) : Type :=
| GetError (msg : string) (code : nat)
| GetJSON (doc : A).
Arguments GetError {A} msg code.
Arguments GetJSON {A} doc.

Section Package.

Context (E : Env).

Definition WpaConfigPath : string := TEST_PREFIX E +:+ "/configs/wifi_uplink/wpa.json".
Definition PPPConfigPath : string := TEST_PREFIX E +:+ "/configs/ppp/ppp.json".

(** [ioutil.WriteFile(fp, data, 0600)] on a generated file. *)
Definition WriteFile (fp data : string) (w : World) : World * option error :=
  if writable E fp then (set_files (<[fp := data]> (files w)) w, None)
  else (w, Some (PathError fp)).

(** Modelled from the spec: [updateInterfaceType] is defined in a file of the
    package that is not part of the sources at hand.  Section 6 of the
    specification: [UpdateInterfaceType(name, type, subtype, enabled)] gives
    the sequence of interface records or an error.  The call is recorded and
    the answer is the environment's. *)
Definition updateInterfaceType (Iface Type_ Subtype : string) (Enabled : bool) (w : World)
  : World * (error + list InterfaceConfig) :=
  (add_call (UpdateInterfaceType Iface Type_ Subtype Enabled) w,
   registryAnswer E (calls w) Iface Type_ Subtype Enabled).

(** Modelled from the spec: [enablePlugin] and [restartPlugin] are defined
    elsewhere in the package.  Section 6: [EnablePlugin(name) -> bool] (true if
    it performed a fresh start), [RestartPlugin(name)]. *)
Definition enablePlugin (name : string) (w : World) : World * bool :=
  (add_call (EnablePlugin name) w, pluginStarted E (calls w) name).

Definition restartPlugin (name : string) (w : World) : World :=
  add_call (RestartPlugin name) w.

(** *** WPA *)

(** The path of the generated WPA file of an interface. *)
Definition wpaConfPath (wpa : WPAIface) : string :=
  TEST_PREFIX E +:+ "/configs/wifi_uplink/wpa_" +:+ WPAIface.Iface wpa +:+ ".conf".

(** [writeWPAs]: one file per enabled interface. *)
Fixpoint writeWPAs_range (wpas : list WPAIface) (w : World) : World * option error :=
  match wpas with
  | [] => (w, None)
  | wpa :: rest =>
      if negb (WPAIface.Enabled wpa) then writeWPAs_range rest w
      else
        match parseWpaTemplate (WPAIface.Iface wpa) with
        | inl err => (w, Some err)
        | inr tmpl =>
            match Execute "wpa_supplicant.conf" tmpl (reflect_WPAIface wpa) with
            | (_, Some err) => (w, Some err)
            | (result, None) =>
                let fp := wpaConfPath wpa in
                match WriteFile fp result w with
                | (w', Some err) => (w', Some err)
                | (w', None) => writeWPAs_range rest w'
                end
            end
        end
  end.

Definition writeWPAs (interfaces : list InterfaceConfig) (config : WPASupplicantConfig)
    (w : World) : World * option error :=
  writeWPAs_range (WPASupplicantConfig.WPAs config) w.

(** [loadWpaConfigLocked]: the empty config and an error when the document is
    missing or does not parse. *)
Definition loadWpaConfigLocked (w : World) : WPASupplicantConfig * option error :=
  match wpa_json w with
  | Some config => (config, None)
  | None => (WPASupplicantConfig.mk [], Some (PathError WpaConfigPath))
  end.

(** The loop of [insertWpaConfigAndSave] over the loaded records: the list
    built so far is returned with [found]; the loop ends at the first record
    of the submitted name. *)
Fixpoint mergeWpaRange (interfaces : list InterfaceConfig) (new_wpa : WPAIface)
    (stored : list WPAIface) (wpas : list WPAIface) : list WPAIface * bool :=
  match stored with
  | [] => (wpas, false)
  | wpa :: rest =>
      if String.eqb (WPAIface.Iface wpa) (WPAIface.Iface new_wpa) then
        (wpas ++ [new_wpa], true)
      else
        let wpa' := WPAIface.set_Enabled
                      (isWifiUplinkIfaceEnabled (WPAIface.Iface wpa) interfaces) wpa in
        mergeWpaRange interfaces new_wpa rest (wpas ++ [wpa'])
  end.

(** The collection [insertWpaConfigAndSave] stores, from the one it loaded. *)
Definition mergeWpa (interfaces : list InterfaceConfig) (new_wpa : WPAIface)
    (stored : list WPAIface) : list WPAIface :=
  match mergeWpaRange interfaces new_wpa stored [] with
  | (wpas, found) =>
      if negb found && negb (String.eqb (WPAIface.Iface new_wpa) "")
      then wpas ++ [new_wpa]
      else wpas
  end.

(** [insertWpaConfigAndSave] *)
Definition insertWpaConfigAndSave (interfaces : list InterfaceConfig) (new_wpa : WPAIface)
    (w : World) : World * option error :=
  let config :=
    match loadWpaConfigLocked w with
    | (loaded, None) => loaded
    | (_, Some _) => WPASupplicantConfig.mk []
    end in
  let config := WPASupplicantConfig.mk
                  (mergeWpa interfaces new_wpa (WPASupplicantConfig.WPAs config)) in
  if writable E WpaConfigPath then
    writeWPAs interfaces config (set_wpa_json (Some config) w)
  else (w, Some (PathError WpaConfigPath)).

(** The loop of [updateWpaSupplicantConfig] over the submitted networks.
    [network] is the loop's own copy of the element: the default is given to
    the copy, and the copy is what is validated. *)
Fixpoint validateNetworks (networks : list WPANetwork) (enabled : bool) : bool * option error :=
  match networks with
  | [] => (enabled, None)
  | network :: rest =>
      let enabled :=
        if negb enabled then
          (if Bool.eqb (WPANetwork.Disabled network) false then true else enabled)
        else enabled in
      let network :=
        if String.eqb (WPANetwork.KeyMgmt network) ""
        then WPANetwork.set_KeyMgmt "WPA-PSK WPA-PSK-SHA256" network
        else network in
      match WPANetwork_Validate network with
      | Some err => (enabled, Some err)
      | None => validateNetworks rest enabled
      end
  end.

(** [updateWpaSupplicantConfig]; the request body is given decoded, or as the
    decoder's error. *)
Definition updateWpaSupplicantConfig (body : error + WPAIface) (w : World) : World * Reply :=
  match body with
  | inl err => (w, HttpError (Error err) 400)
  | inr wpa =>
      if negb (regexp_MatchString ifacePattern (WPAIface.Iface wpa)) then
        (w, HttpError "Invalid iface name" 400)
      else
        match validateNetworks (WPAIface.Networks wpa) false with
        | (_, Some err) => (w, HttpError ("Failed to validate network " +:+ Error err) 400)
        | (enabled, None) =>
            match updateInterfaceType (WPAIface.Iface wpa) "Uplink" "wifi"
                    (WPAIface.Enabled wpa) w with
            | (w, inl err) => (w, HttpError (Error err) 400)
            | (w, inr interfaces) =>
                match insertWpaConfigAndSave interfaces wpa w with
                | (w, Some err) => (w, HttpError (Error err) 400)
                | (w, None) =>
                    let uplink_plugin := "WIFI-UPLINK" in
                    let '(w, started) :=
                      if enabled then enablePlugin uplink_plugin w else (w, false) in
                    let w := if negb started then restartPlugin uplink_plugin w else w in
                    (w, HttpOK)
                end
            end
        end
  end.

(** *** PPP *)

(** The paths of the generated PPP files. *)
Definition chapSecretsPath : string := TEST_PREFIX E +:+ "/etc/ppp/chap-secrets".
Definition providerPath (ppp : PPPIface) : string :=
  TEST_PREFIX E +:+ "/etc/ppp/provider_" +:+ PPPIface.Iface ppp.

(** The loop of [writePPP] over the records: one provider file each. *)
Fixpoint writePPP_range (ppps : list PPPIface) (w : World) : World * option error :=
  match ppps with
  | [] => (w, None)
  | ppp :: rest =>
      match Execute "provider" providerTemplate (reflect_PPPIface ppp) with
      | (_, Some err) => (w, Some err)
      | (result, None) =>
          let fp := providerPath ppp in
          match WriteFile fp result w with
          | (w', Some err) => (w', Some err)
          | (w', None) => writePPP_range rest w'
          end
      end
  end.

(** [writePPP]: the shared secrets file, then the provider files. *)
Definition writePPP (interfaces : list InterfaceConfig) (config : PPPConfig)
    (w : World) : World * option error :=
  match Execute "chap-secrets" chapSecretsTemplate (reflect_PPPConfig config) with
  | (_, Some err) => (w, Some err)
  | (result, None) =>
      let fp := chapSecretsPath in
      match WriteFile fp result w with
      | (w', Some err) => (w', Some err)
      | (w', None) => writePPP_range (PPPConfig.PPPs config) w'
      end
  end.

(** [loadPPPConfigLocked] *)
Definition loadPPPConfigLocked (w : World) : PPPConfig * option error :=
  match ppp_json w with
  | Some config => (config, None)
  | None => (PPPConfig.mk [], Some (PathError PPPConfigPath))
  end.

(** The loop of [insertPPPConfigAndSave] over the loaded records. *)
Fixpoint mergePPPRange (interfaces : list InterfaceConfig) (new_ppp : PPPIface)
    (stored : list PPPIface) (ppps : list PPPIface) : list PPPIface * bool :=
  match stored with
  | [] => (ppps, false)
  | ppp :: rest =>
      if String.eqb (PPPIface.Iface ppp) (PPPIface.Iface new_ppp) then
        (ppps ++ [new_ppp], true)
      else
        let ppp' := PPPIface.set_Enabled
                      (isPPPUplinkIfaceEnabled (PPPIface.Iface ppp) interfaces) ppp in
        mergePPPRange interfaces new_ppp rest (ppps ++ [ppp'])
  end.

(** The collection [insertPPPConfigAndSave] stores, from the one it loaded. *)
Definition mergePPP (interfaces : list InterfaceConfig) (new_ppp : PPPIface)
    (stored : list PPPIface) : list PPPIface :=
  match mergePPPRange interfaces new_ppp stored [] with
  | (ppps, found) =>
      if negb found && negb (String.eqb (PPPIface.Iface new_ppp) "")
      then ppps ++ [new_ppp]
      else ppps
  end.

(** [insertPPPConfigAndSave] *)
Definition insertPPPConfigAndSave (interfaces : list InterfaceConfig) (new_ppp : PPPIface)
    (w : World) : World * option error :=
  let config :=
    match loadPPPConfigLocked w with
    | (loaded, None) => loaded
    | (_, Some _) => PPPConfig.mk []
    end in
  let config := PPPConfig.mk (mergePPP interfaces new_ppp (PPPConfig.PPPs config)) in
  if writable E PPPConfigPath then
    writePPP interfaces config (set_ppp_json (Some config) w)
  else (w, Some (PathError PPPConfigPath)).

(** [updatePPPConfig]; the request body is given decoded, or as the decoder's
    error. *)
Definition updatePPPConfig (body : error + PPPIface) (w : World) : World * Reply :=
  match body with
  | inl err => (w, HttpError (Error err) 400)
  | inr ppp =>
      match PPPIface_Validate ppp with
      | Some err => (w, HttpError ("Failed to validate ppp " +:+ Error err) 400)
      | None =>
          match updateInterfaceType (PPPIface.Iface ppp) "Uplink" "ppp"
                  (PPPIface.Enabled ppp) w with
          | (w, inl err) => (w, HttpError (Error err) 400)
          | (w, inr interfaces) =>
              match insertPPPConfigAndSave interfaces ppp w with
              | (w, Some err) => (w, HttpError (Error err) 400)
              | (w, None) =>
                  let ppp_plugin := "PPP" in
                  let '(w, started) := enablePlugin ppp_plugin w in
                  let w := if negb started then restartPlugin ppp_plugin w else w in
                  (w, HttpOK)
              end
          end
      end
  end.

(** *** Reading the stored documents *)

(** [loadWpaConfig] and [loadPPPConfig]: the locked load under the mutex. *)
Definition loadWpaConfig (w : World) : WPASupplicantConfig * option error :=
  loadWpaConfigLocked w.

Definition loadPPPConfig (w : World) : PPPConfig * option error :=
  loadPPPConfigLocked w.

(** [getWpaSupplicantConfig]: the stored document, or a 400 when it cannot
    be loaded.  (The Content-Type header, set in both cases, is not kept.) *)
Definition getWpaSupplicantConfig (w : World) : GetReply WPASupplicantConfig :=
  match loadWpaConfig w with
  | (_, Some _) => GetError "Failed to load wpa configuration" 400
  | (config, None) => GetJSON config
  end.

(** [getPPPConfig] *)
Definition getPPPConfig (w : World) : GetReply PPPConfig :=
  match loadPPPConfig w with
  | (_, Some _) => GetError "Failed to load ppp configuration" 400
  | (config, None) => GetJSON config
  end.

End Package.

(** ** The statements of the specification, as definitions *)

(** The key-management tokens. *)
Definition keyMgmtTokens : list string := ["WPA-PSK"; "WPA-PSK-SHA256"; "SAE"].

(** "A non-empty single-space-separated sequence of tokens each drawn from
    WPA-PSK, WPA-PSK-SHA256, SAE". *)
Definition validKeyMgmt (k : string) : Prop :=
  exists toks : list string,
    toks <> [] /\ Forall (fun t => In t keyMgmtTokens) toks /\ k = strings_Join toks " ".

(** "Otherwise valid": the checks of [WPANetwork.Validate] that come before
    the ones on [KeyMgmt] all pass. *)
Definition otherwiseValid (n : WPANetwork) : bool :=
  negb (strings_Contains (WPANetwork.Password n) nl)
  && negb (strings_Contains (WPANetwork.SSID n) nl)
  && (String.eqb (WPANetwork.Priority n) "" || negb (is_err (strconv_Atoi (WPANetwork.Priority n))))
  && (String.eqb (WPANetwork.BSSID n) ""
      || regexp_MatchString bssidPattern (WPANetwork.BSSID n)).

(** The strings a pattern stands for. *)
Inductive lang : regex -> string -> Prop :=
| lang_Empty : lang Empty ""
| lang_Class (p : ascii -> bool) (c : ascii) :
    p c = true -> lang (Class p) (String c "")
| lang_Cat (r s : regex) (x y : string) :
    lang r x -> lang s y -> lang (Cat r s) (x +:+ y)
| lang_Alt_l (r s : regex) (x : string) : lang r x -> lang (Alt r s) x
| lang_Alt_r (r s : regex) (x : string) : lang s x -> lang (Alt r s) x
| lang_Star_nil (r : regex) : lang (Star r) ""
| lang_Star_app (r : regex) (x y : string) :
    lang r x -> lang (Star r) y -> lang (Star r) (x +:+ y).

(** The bytes the name check of [updateWpaSupplicantConfig] lets through. *)
Definition ifaceByte (c : ascii) : bool := alnum c || Ascii.eqb c ".".

(** No byte of [t] is [sep]. *)
Definition freeOf (sep : ascii) (t : string) : Prop :=
  Forall (fun a => a <> sep) (list_ascii_of_string t).

(** The stored collections; a missing or unreadable document counts as the
    empty collection, as the merge takes it. *)
Definition storedWPAs (w : World) : list WPAIface :=
  match wpa_json w with
  | Some config => WPASupplicantConfig.WPAs config
  | None => []
  end.

Definition storedPPPs (w : World) : list PPPIface :=
  match ppp_json w with
  | Some config => PPPConfig.PPPs config
  | None => []
  end.

(** [w'] differs from [w] in the generated files at most. *)
Definition sameButFiles (w w' : World) : Prop :=
  wpa_json w' = wpa_json w /\ ppp_json w' = ppp_json w /\ calls w' = calls w.

(** The cached flag of a stored WPA record, refreshed from the interface list. *)
Definition refreshWpa (interfaces : list InterfaceConfig) (wpa : WPAIface) : WPAIface :=
  WPAIface.set_Enabled (isWifiUplinkIfaceEnabled (WPAIface.Iface wpa) interfaces) wpa.

Definition refreshPPP (interfaces : list InterfaceConfig) (ppp : PPPIface) : PPPIface :=
  PPPIface.set_Enabled (isPPPUplinkIfaceEnabled (PPPIface.Iface ppp) interfaces) ppp.

(** The line of the shared secrets file for one record: the user name, a
    wildcard server, the secret. *)
Definition chapSecretsLine (ppp : PPPIface) : string :=
  nl +:+ "      " +:+ dq +:+ PPPIface.Username ppp +:+ dq +:+ " * " +:+ dq
  +:+ PPPIface.Secret ppp +:+ dq +:+ nl +:+ "    ".

(** The shared secrets file: the heading, one line per record, the tail. *)
Definition chapSecretsText (config : PPPConfig) : string :=
  "# Note this is an autogenerated file" +:+ nl +:+
  "    # Secrets for authentication using CHAP" +:+ nl +:+
  "    # client        server  secret                  IP addresses" +:+ nl +:+
  nl +:+
  "    " +:+ fold_right String.append "" (map chapSecretsLine (PPPConfig.PPPs config))
  +:+ nl +:+ "    ".

(** What execution of the provider template has written when it reaches the
    action on [.BSSID]. *)
Definition providerTextBeforeBSSID (ppp : PPPIface) : string :=
  "# Note this is an autogenerated file" +:+ nl +:+
  "      # Minimalistic default options file for DSL/PPPoE connections" +:+ nl +:+
  "      noipdefault" +:+ nl +:+
  "      defaultroute" +:+ nl +:+
  "      replacedefaultroute" +:+ nl +:+
  "      persist" +:+ nl +:+
  "      " +:+
  (if String.eqb (PPPIface.MTU ppp) "" then "" else "mtu " +:+ PPPIface.MTU ppp) +:+
  nl +:+ "      plugin rp-pppoe.so " +:+ PPPIface.Iface ppp +:+
  (if String.eqb (PPPIface.VLAN ppp) "" then "" else "." +:+ PPPIface.VLAN ppp) +:+
  nl +:+ "      ".

(** No newline in [s]. *)
Definition newlineFree (s : string) : Prop :=
  Forall (fun c => c <> "010"%char) (list_ascii_of_string s).

(** The bytes of a MAC address: hexadecimal digits, colons and hyphens. *)
Definition macByte (c : ascii) : bool :=
  hexdigit c || Ascii.eqb c ":" || Ascii.eqb c "-".

(** The bytes of a decimal numeral: digits and the two signs. *)
Definition numeralByte (c : ascii) : bool :=
  in_range "0" "9" c || Ascii.eqb c "-" || Ascii.eqb c "+".

(** The network block of the WPA file, written for a network that is not
    disabled. *)
Definition wpaBlockText (n : WPANetwork) : string :=
  nl +:+ "      network={" +:+ nl +:+
  "      " +:+ tab +:+ "ssid=" +:+ dq +:+ WPANetwork.SSID n +:+ dq +:+ nl +:+
  "      " +:+ tab +:+ "psk=" +:+ dq +:+ WPANetwork.Password n +:+ dq +:+ nl +:+
  "      " +:+ tab +:+
  (if String.eqb (WPANetwork.Priority n) "" then ""
   else "priority=" +:+ WPANetwork.Priority n) +:+ nl +:+
  "      " +:+ tab +:+
  (if String.eqb (WPANetwork.BSSID n) "" then ""
   else "bssid=" +:+ WPANetwork.BSSID n) +:+ nl +:+
  "        key_mgmt=" +:+ WPANetwork.KeyMgmt n +:+ nl +:+
  "      }" +:+ nl +:+
  "      ".

(** What one network adds to the WPA file: blank space around its block, or
    blank space alone when it is disabled. *)
Definition wpaNetworkText (n : WPANetwork) : string :=
  nl +:+ "      " +:+
  (if WPANetwork.Disabled n then "" else wpaBlockText n) +:+
  nl +:+ "      ".

(** The WPA file of an interface. *)
Definition wpaText (wpa : WPAIface) : string :=
  ("# Note this is an autogenerated file" +:+ nl +:+
   "      ctrl_interface=DIR=/var/run/wpa_supplicant_" +:+ WPAIface.Iface wpa +:+ nl +:+
   "      ")
  +:+ fold_right String.append "" (map wpaNetworkText (WPAIface.Networks wpa)).

(** The calls a handler adds to the log. *)
Definition callsAdded (w w' : World) (added : list Call) : Prop :=
  calls w' = calls w ++ added.

(** ** Concrete surroundings and requests, for the scenarios *)

Module Scenario.

(** A registry that holds [base] and answers an update with the list in which
    the named interface carries the submitted type, subtype and flag. *)
Fixpoint upsert (name ty sub : string) (en : bool) (l : list InterfaceConfig)
  : list InterfaceConfig :=
  match l with
  | [] => [InterfaceConfig.mk name ty sub en]
  | i :: rest =>
      if String.eqb (InterfaceConfig.Name i) name
      then InterfaceConfig.mk name ty sub en :: rest
      else i :: upsert name ty sub en rest
  end.

Definition env (base : list InterfaceConfig) (fresh : bool) : Env :=
  {| TEST_PREFIX := "";
     writable := fun _ => true;
     registryAnswer := fun _ name ty sub en => inr (upsert name ty sub en base);
     pluginStarted := fun _ _ => fresh |}.

Definition emptyWorld : World := mkWorld None None ∅ [].

Definition home (keyMgmt : string) : WPANetwork :=
  WPANetwork.mk false "secret123" "Home" keyMgmt "" "".

Definition wlan1 (enabled : bool) (keyMgmt : string) : WPAIface :=
  WPAIface.mk "wlan1" enabled [home keyMgmt].

Definition wlan2 : WPAIface :=
  WPAIface.mk "wlan2" true [WPANetwork.mk false "hunter22" "Office" "SAE" "" ""].

Definition bothInterfaces : list InterfaceConfig :=
  [InterfaceConfig.mk "wlan1" "Uplink" "wifi" true;
   InterfaceConfig.mk "wlan2" "Uplink" "wifi" true].

Definition twoStored : World :=
  mkWorld (Some (WPASupplicantConfig.mk [wlan1 true "WPA-PSK"; wlan2])) None ∅ [].

Definition alice : PPPIface := PPPIface.mk "ppp0" false "alice" "pw" "" "".

(** Scenario B: [wlan1] is stored enabled and is submitted again, disabled,
    with the same network. *)
Definition wlan1Stored : World :=
  mkWorld (Some (WPASupplicantConfig.mk [wlan1 true "WPA-PSK WPA-PSK-SHA256"])) None ∅ [].

Definition wlan1Disabled : WPAIface := wlan1 false "WPA-PSK WPA-PSK-SHA256".

(** A PPP record with a text for VLAN. *)
Definition badVlan : PPPIface := PPPIface.mk "ppp0" true "alice" "pw" "abc" "".

(** Surroundings in which the file [ro] cannot be written and the registry
    refuses every update. *)
Definition roEnv (ro : string) : Env :=
  {| TEST_PREFIX := "";
     writable := fun p => negb (String.eqb p ro);
     registryAnswer := fun _ _ _ _ _ => inl (RegistryError "no such interface");
     pluginStarted := fun _ _ => false |}.

(** A world in which a file generated earlier for wlan1 is still there. *)
Definition staleWorld : World :=
  mkWorld None None {["/configs/wifi_uplink/wpa_wlan1.conf" := "old"]} [].

(** wlan1 with its one network disabled. *)
Definition wlan1NetworkOff : WPAIface :=
  WPAIface.mk "wlan1" true [WPANetwork.mk true "secret123" "Home" "SAE" "" ""].

(** A PPP record whose interface name spans two lines. *)
Definition twoLineIface : PPPIface :=
  PPPIface.mk ("eth0" +:+ nl +:+ "noauth") true "alice" "pw" "" "".

End Scenario.

(** * Properties *)

(** ** The library functions *)

Lemma strings_Split_not_nil (s : string) (sep : ascii) : strings_Split s sep <> [].
Proof.
  destruct s as [|c s]; simpl; [discriminate|].
  destruct (Ascii.eqb c sep); [discriminate|].
  destruct (strings_Split s sep); discriminate.
Qed.

Lemma concat_cons_cons (sep x y : string) (l : list string) :
  String.concat sep (x :: y :: l) = x +:+ sep +:+ String.concat sep (y :: l).
Proof. reflexivity. Qed.

(** Joining the pieces of a split with the separator gives the string back. *)
Lemma strings_Join_Split (s : string) (sep : ascii) :
  strings_Join (strings_Split s sep) (String sep EmptyString) = s.
Proof.
  unfold strings_Join.
  induction s as [|c s IH]; [reflexivity|].
  simpl strings_Split.
  pose proof (strings_Split_not_nil s sep) as Hne.
  destruct (Ascii.eqb_spec c sep) as [->|Hc].
  - destruct (strings_Split s sep) as [|p ps]; [congruence|].
    rewrite concat_cons_cons, IH. reflexivity.
  - destruct (strings_Split s sep) as [|p ps]; [congruence|].
    rewrite <- IH. destruct ps; reflexivity.
Qed.

(** A string free of the separator is one piece, and such a string followed
    by the separator is cut there. *)
Lemma strings_Split_free (sep : ascii) (t : string) :
  freeOf sep t -> strings_Split t sep = [t].
Proof.
  unfold freeOf. induction t as [|c t IH]; simpl; intros H; [reflexivity|].
  inversion H as [|? ? Hc Ht]; subst.
  destruct (Ascii.eqb_spec c sep); [contradiction|].
  now rewrite (IH Ht).
Qed.

Lemma strings_Split_app (sep : ascii) (t rest : string) :
  freeOf sep t ->
  strings_Split (t +:+ String sep rest) sep = t :: strings_Split rest sep.
Proof.
  unfold freeOf. induction t as [|c t IH]; simpl; intros H.
  - now rewrite Ascii.eqb_refl.
  - inversion H as [|? ? Hc Ht]; subst.
    destruct (Ascii.eqb_spec c sep); [contradiction|].
    now rewrite (IH Ht).
Qed.

Lemma strings_Split_Join (sep : ascii) (toks : list string) :
  toks <> [] -> Forall (freeOf sep) toks ->
  strings_Split (strings_Join toks (String sep EmptyString)) sep = toks.
Proof.
  unfold strings_Join.
  induction toks as [|t toks IH]; [congruence|].
  intros _ H. inversion H as [|? ? Ht Htoks]; subst.
  destruct toks as [|u toks].
  - simpl. now apply strings_Split_free.
  - change (strings_Split
              (t +:+ String sep (String.concat (String sep EmptyString) (u :: toks))) sep
            = t :: u :: toks).
    rewrite strings_Split_app by assumption.
    rewrite IH; [reflexivity|discriminate|assumption].
Qed.

(** ** WPANetwork.Validate *)

Lemma validateKeyMgmtParts_None (parts : list string) :
  validateKeyMgmtParts parts = None <-> Forall (fun t => In t keyMgmtTokens) parts.
Proof.
  induction parts as [|part rest IH]; simpl.
  - split; [constructor|reflexivity].
  - destruct (String.eqb_spec part "WPA-PSK") as [->|H1];
      [rewrite IH; split; [intros; constructor; simpl; auto | now inversion 1]|].
    destruct (String.eqb_spec part "WPA-PSK-SHA256") as [->|H2];
      [rewrite IH; split; [intros; constructor; simpl; auto | now inversion 1]|].
    destruct (String.eqb_spec part "SAE") as [->|H3];
      [rewrite IH; split; [intros; constructor; simpl; auto | now inversion 1]|].
    split; [discriminate|].
    inversion 1 as [|? ? Hin _]; subst. simpl in Hin.
    destruct Hin as [<-|[<-|[<-|[]]]]; congruence.
Qed.

Lemma keyMgmtToken_free (t : string) : In t keyMgmtTokens -> freeOf " " t.
Proof.
  simpl. intros [<-|[<-|[<-|[]]]]; unfold freeOf; simpl;
    repeat constructor; discriminate.
Qed.

Lemma keyMgmtToken_join_not_empty (toks : list string) :
  toks <> [] -> Forall (fun t => In t keyMgmtTokens) toks ->
  strings_Join toks " " <> "".
Proof.
  destruct toks as [|t toks]; [congruence|].
  intros _ H. inversion H as [|? ? Hin _]; subst. simpl in Hin.
  unfold strings_Join.
  destruct Hin as [<-|[<-|[<-|[]]]]; destruct toks; discriminate.
Qed.

(** After the checks that come before it, [Validate] is the check on
    [KeyMgmt]. *)
Lemma WPANetwork_Validate_otherwiseValid (n : WPANetwork) :
  otherwiseValid n = true ->
  WPANetwork_Validate n =
    if String.eqb (WPANetwork.KeyMgmt n) "" then
      Some (Errorf "KeyMgmt field must be set (WPA-PSK WPA-PSK-SHA256 or WPA-PSK WPA-PSK-SHA256 SAE)")
    else validateKeyMgmtParts (strings_Split (WPANetwork.KeyMgmt n) " ").
Proof.
  unfold otherwiseValid, WPANetwork_Validate. intros H.
  apply andb_prop in H as [H Hb]. apply andb_prop in H as [H Hp].
  apply andb_prop in H as [Hpw Hs].
  apply negb_true_iff in Hpw, Hs. rewrite Hpw, Hs.
  destruct (String.eqb (WPANetwork.Priority n) ""); simpl in Hp |- *;
    [|rewrite negb_true_iff in Hp; rewrite Hp];
    (destruct (String.eqb (WPANetwork.BSSID n) ""); simpl in Hb |- *;
       [|rewrite Hb]; reflexivity).
Qed.

(** C6. For a network entry that passes the checks on Password, SSID,
    Priority and BSSID, [WPANetwork.Validate] accepts exactly when KeyMgmt is a
    non-empty sequence of tokens from WPA-PSK, WPA-PSK-SHA256, SAE joined by
    single spaces; an empty KeyMgmt is rejected, and so is a KeyMgmt one of
    whose space-separated parts is not such a token. *)
Theorem WPANetwork_Validate_KeyMgmt (n : WPANetwork) :
  otherwiseValid n = true ->
  (WPANetwork_Validate n = None <-> validKeyMgmt (WPANetwork.KeyMgmt n))
  /\ (WPANetwork.KeyMgmt n = "" -> WPANetwork_Validate n <> None)
  /\ (forall part : string,
        In part (strings_Split (WPANetwork.KeyMgmt n) " ") ->
        ~ In part keyMgmtTokens ->
        WPANetwork_Validate n <> None).
Proof.
  intros Hok. rewrite (WPANetwork_Validate_otherwiseValid n Hok).
  split; [|split].
  - destruct (String.eqb_spec (WPANetwork.KeyMgmt n) "") as [He|Hne].
    + split; [discriminate|].
      intros (toks & Hnil & Hall & Hjoin). exfalso.
      apply (keyMgmtToken_join_not_empty toks Hnil Hall). congruence.
    + rewrite validateKeyMgmtParts_None. split.
      * intros Hall. exists (strings_Split (WPANetwork.KeyMgmt n) " ").
        split; [apply strings_Split_not_nil|]. split; [exact Hall|].
        symmetry. apply strings_Join_Split.
      * intros (toks & Hnil & Hall & Hjoin). rewrite Hjoin.
        rewrite strings_Split_Join; [exact Hall|exact Hnil|].
        eapply Forall_impl; [exact Hall|exact keyMgmtToken_free].
  - intros ->. discriminate.
  - intros part Hin Hnot.
    destruct (String.eqb (WPANetwork.KeyMgmt n) ""); [discriminate|].
    rewrite validateKeyMgmtParts_None. intros Hall.
    rewrite Forall_forall in Hall. apply Hnot, Hall.
    now apply list_elem_of_In.
Qed.

Lemma WPANetwork_Validate_KeyMgmt_witness :
  otherwiseValid (Scenario.home "WPA-PSK SAE") = true
  /\ (WPANetwork_Validate (Scenario.home "WPA-PSK SAE") = None
      <-> validKeyMgmt "WPA-PSK SAE").
Proof.
  split; [reflexivity|].
  exact (proj1 (WPANetwork_Validate_KeyMgmt (Scenario.home "WPA-PSK SAE") eq_refl)).
Defined.

(** ** The merge of a submitted record into the stored collection

    The WPA and the PPP merge are the same code over two record types; the
    proof steps they share are tactics. *)

Ltac range_acc stored :=
  induction stored as [|r rest IH]; intros acc; simpl;
  [ now rewrite app_nil_r
  | match goal with |- context [String.eqb ?a ?b] => destruct (String.eqb a b) end;
    [ reflexivity
    | rewrite IH; symmetry; rewrite IH; simpl; now rewrite <- app_assoc ] ].

Ltac merge_cons range_acc_lemma :=
  simpl;
  match goal with |- context [String.eqb ?a ?b] => destruct (String.eqb a b) end;
  [ reflexivity
  | rewrite range_acc_lemma; simpl;
    match goal with |- context [snd ?p] => destruct p as [x [|]] end; simpl;
    [ reflexivity
    | match goal with |- context [String.eqb ?a ""] => destruct (String.eqb a "") end;
      reflexivity ] ].

Lemma mergeWpaRange_acc interfaces new_wpa stored :
  forall acc,
    mergeWpaRange interfaces new_wpa stored acc =
    (acc ++ fst (mergeWpaRange interfaces new_wpa stored []),
     snd (mergeWpaRange interfaces new_wpa stored [])).
Proof. range_acc stored. Qed.

Lemma mergePPPRange_acc interfaces new_ppp stored :
  forall acc,
    mergePPPRange interfaces new_ppp stored acc =
    (acc ++ fst (mergePPPRange interfaces new_ppp stored []),
     snd (mergePPPRange interfaces new_ppp stored [])).
Proof. range_acc stored. Qed.

(** The merge, read off the loop: at a record of the submitted name the
    result ends with the submitted record; a record before it is kept with its
    flag refreshed; at the end of the list the submitted record is appended
    unless its name is empty. *)
Lemma mergeWpa_nil interfaces new_wpa :
  mergeWpa interfaces new_wpa [] =
  if String.eqb (WPAIface.Iface new_wpa) "" then [] else [new_wpa].
Proof. unfold mergeWpa. simpl. now destruct (String.eqb _ _). Qed.

Lemma mergeWpa_cons interfaces new_wpa wpa rest :
  mergeWpa interfaces new_wpa (wpa :: rest) =
  if String.eqb (WPAIface.Iface wpa) (WPAIface.Iface new_wpa) then [new_wpa]
  else refreshWpa interfaces wpa :: mergeWpa interfaces new_wpa rest.
Proof. unfold mergeWpa. merge_cons mergeWpaRange_acc. Qed.

Lemma mergePPP_nil interfaces new_ppp :
  mergePPP interfaces new_ppp [] =
  if String.eqb (PPPIface.Iface new_ppp) "" then [] else [new_ppp].
Proof. unfold mergePPP. simpl. now destruct (String.eqb _ _). Qed.

Lemma mergePPP_cons interfaces new_ppp ppp rest :
  mergePPP interfaces new_ppp (ppp :: rest) =
  if String.eqb (PPPIface.Iface ppp) (PPPIface.Iface new_ppp) then [new_ppp]
  else refreshPPP interfaces ppp :: mergePPP interfaces new_ppp rest.
Proof. unfold mergePPP. merge_cons mergePPPRange_acc. Qed.

Lemma refreshWpa_idem interfaces wpa :
  refreshWpa interfaces (refreshWpa interfaces wpa) = refreshWpa interfaces wpa.
Proof. reflexivity. Qed.

Lemma refreshPPP_idem interfaces ppp :
  refreshPPP interfaces (refreshPPP interfaces ppp) = refreshPPP interfaces ppp.
Proof. reflexivity. Qed.

Ltac merge_idem nil_lemma cons_lemma stored :=
  let He := fresh "He" in
  let IH := fresh "IH" in
  induction stored as [|? ? IH];
  [ rewrite nil_lemma;
    match goal with |- context [String.eqb ?a ""] => destruct (String.eqb a "") eqn:He end;
    [ rewrite nil_lemma, He; reflexivity
    | rewrite cons_lemma, String.eqb_refl; reflexivity ]
  | rewrite cons_lemma;
    match goal with |- context [String.eqb ?a ?b] => destruct (String.eqb a b) eqn:He end;
    [ rewrite cons_lemma, String.eqb_refl; reflexivity
    | rewrite cons_lemma; simpl; rewrite He, IH; reflexivity ] ].

Lemma mergeWpa_idempotent interfaces new_wpa stored :
  mergeWpa interfaces new_wpa (mergeWpa interfaces new_wpa stored) =
  mergeWpa interfaces new_wpa stored.
Proof. merge_idem mergeWpa_nil mergeWpa_cons stored. Qed.

Lemma mergePPP_idempotent interfaces new_ppp stored :
  mergePPP interfaces new_ppp (mergePPP interfaces new_ppp stored) =
  mergePPP interfaces new_ppp stored.
Proof. merge_idem mergePPP_nil mergePPP_cons stored. Qed.

(** ** Rendering *)

Lemma append_nil_r (s : string) : s +:+ "" = s.
Proof.
  induction s as [|a s IH]; [reflexivity|].
  change (String a (s +:+ "") = String a s). now rewrite IH.
Qed.

Lemma chapSecrets_rangeLoop (ppps : list PPPIface) :
  rangeLoop
    (Execute "chap-secrets"
       (Text (nl +:+ "      " +:+ dq)
       (Print (Field "Username")
       (Text (dq +:+ " * " +:+ dq)
       (Print (Field "Secret")
       (Text (dq +:+ nl +:+ "    ")
       Done))))))
    (map reflect_PPPIface ppps)
  = (fold_right String.append "" (map chapSecretsLine ppps), None).
Proof.
  induction ppps as [|ppp rest IH]; [reflexivity|].
  cbn [map rangeLoop]. cbn [map rangeLoop] in IH. rewrite IH. reflexivity.
Qed.

(** The secrets template executes without error on every collection and
    gives the heading, one line per record and the tail. *)
Lemma chapSecrets_Execute (config : PPPConfig) :
  Execute "chap-secrets" chapSecretsTemplate (reflect_PPPConfig config)
  = (chapSecretsText config, None).
Proof.
  unfold chapSecretsTemplate, reflect_PPPConfig, chapSecretsText.
  cbn [Execute evalPipeline evalField lookupField String.eqb Ascii.eqb Bool.eqb].
  rewrite chapSecrets_rangeLoop. reflexivity.
Qed.

(** The provider template stops at the action on [.BSSID]: [PPPIface] has no
    such field. *)
Lemma provider_Execute (ppp : PPPIface) :
  Execute "provider" providerTemplate (reflect_PPPIface ppp)
  = (providerTextBeforeBSSID ppp, Some (ExecError "provider" "BSSID" "main.PPPIface")).
Proof.
  unfold providerTextBeforeBSSID.
  destruct ppp as [iface en user secret vlan mtu].
  cbv [providerTemplate reflect_PPPIface Execute evalPipeline evalField lookupField
       truth printValue PPPIface.MTU PPPIface.VLAN PPPIface.Iface].
  cbn [String.eqb Ascii.eqb Bool.eqb].
  destruct (String.eqb mtu ""), (String.eqb vlan "");
    cbn [negb]; rewrite ?append_nil_r; reflexivity.
Qed.

(** ** The writers *)

Section Writers.

Context (E : Env).

Lemma sameButFiles_refl (w : World) : sameButFiles w w.
Proof. now repeat split. Qed.

Lemma sameButFiles_trans (w1 w2 w3 : World) :
  sameButFiles w1 w2 -> sameButFiles w2 w3 -> sameButFiles w1 w3.
Proof. unfold sameButFiles. intros (?&?&?) (?&?&?). repeat split; congruence. Qed.

Lemma WriteFile_sameButFiles (fp data : string) (w : World) :
  sameButFiles w (fst (WriteFile E fp data w)).
Proof. unfold WriteFile. destruct (writable E fp); now repeat split. Qed.

(** [writeWPAs] touches the generated files only. *)
Lemma writeWPAs_range_sameButFiles (wpas : list WPAIface) :
  forall w, sameButFiles w (fst (writeWPAs_range E wpas w)).
Proof.
  induction wpas as [|wpa rest IH]; intros w; simpl; [apply sameButFiles_refl|].
  destruct (WPAIface.Enabled wpa); simpl; [|apply IH].
  destruct (parseWpaTemplate (WPAIface.Iface wpa)) as [err|tmpl];
    [apply sameButFiles_refl|].
  destruct (Execute _ tmpl _) as [result [err|]]; [apply sameButFiles_refl|].
  pose proof (WriteFile_sameButFiles (wpaConfPath E wpa) result w) as Hw.
  destruct (WriteFile E _ result w) as [w' [err|]]; simpl in Hw |- *; [exact Hw|].
  eapply sameButFiles_trans; [exact Hw|apply IH].
Qed.

(** [writeWPAs] skips the records whose [Enabled] is false. *)
Lemma writeWPAs_range_disabled (wpas : list WPAIface) (w : World) :
  Forall (fun wpa => WPAIface.Enabled wpa = false) wpas ->
  writeWPAs_range E wpas w = (w, None).
Proof.
  induction 1 as [|wpa rest Hd _ IH]; simpl; [reflexivity|].
  now rewrite Hd.
Qed.

(** The loop of [writePPP] over the records writes nothing: on the first
    record the provider template fails. *)
Lemma writePPP_range_result (ppps : list PPPIface) (w : World) :
  writePPP_range E ppps w =
  (w, match ppps with
      | [] => None
      | _ :: _ => Some (ExecError "provider" "BSSID" "main.PPPIface")
      end).
Proof.
  destruct ppps as [|ppp rest]; cbn [writePPP_range]; [reflexivity|].
  now rewrite provider_Execute.
Qed.

Lemma writePPP_result (interfaces : list InterfaceConfig) (config : PPPConfig) (w : World) :
  writePPP E interfaces config w =
  if writable E (chapSecretsPath E) then
    (set_files (<[chapSecretsPath E := chapSecretsText config]> (files w)) w,
     match PPPConfig.PPPs config with
     | [] => None
     | _ :: _ => Some (ExecError "provider" "BSSID" "main.PPPIface")
     end)
  else (w, Some (PathError (chapSecretsPath E))).
Proof.
  unfold writePPP. rewrite chapSecrets_Execute. unfold WriteFile.
  destruct (writable E _); [|reflexivity].
  now rewrite writePPP_range_result.
Qed.

Lemma writePPP_sameButFiles interfaces config w :
  sameButFiles w (fst (writePPP E interfaces config w)).
Proof.
  rewrite writePPP_result. destruct (writable E _); now repeat split.
Qed.

(** What [insertWpaConfigAndSave] and [insertPPPConfigAndSave] leave in the
    store. *)
Lemma insertWpaConfigAndSave_stored interfaces new_wpa w :
  wpa_json (fst (insertWpaConfigAndSave E interfaces new_wpa w)) =
  if writable E (WpaConfigPath E)
  then Some (WPASupplicantConfig.mk (mergeWpa interfaces new_wpa (storedWPAs w)))
  else wpa_json w.
Proof.
  unfold insertWpaConfigAndSave, writeWPAs, loadWpaConfigLocked, storedWPAs.
  destruct (writable E (WpaConfigPath E)); [|reflexivity].
  match goal with |- wpa_json (fst (writeWPAs_range E ?l ?w0)) = _ =>
    destruct (writeWPAs_range_sameButFiles l w0) as (-> & _) end.
  destruct (wpa_json w); reflexivity.
Qed.

Lemma insertPPPConfigAndSave_stored interfaces new_ppp w :
  ppp_json (fst (insertPPPConfigAndSave E interfaces new_ppp w)) =
  if writable E (PPPConfigPath E)
  then Some (PPPConfig.mk (mergePPP interfaces new_ppp (storedPPPs w)))
  else ppp_json w.
Proof.
  unfold insertPPPConfigAndSave, loadPPPConfigLocked, storedPPPs.
  destruct (writable E (PPPConfigPath E)); [|reflexivity].
  match goal with |- ppp_json (fst (writePPP E ?i ?c ?w0)) = _ =>
    destruct (writePPP_sameButFiles i c w0) as (_ & -> & _) end.
  destruct (ppp_json w); reflexivity.
Qed.

Lemma insertWpaConfigAndSave_calls interfaces new_wpa w :
  calls (fst (insertWpaConfigAndSave E interfaces new_wpa w)) = calls w.
Proof.
  unfold insertWpaConfigAndSave, writeWPAs.
  destruct (writable E (WpaConfigPath E)); [|reflexivity].
  match goal with |- calls (fst (writeWPAs_range E ?l ?w0)) = _ =>
    destruct (writeWPAs_range_sameButFiles l w0) as (_ & _ & ->) end.
  reflexivity.
Qed.

End Writers.

(** ** The merge, on the store *)

Lemma storedWPAs_insert (E : Env) interfaces new_wpa w :
  storedWPAs (fst (insertWpaConfigAndSave E interfaces new_wpa w)) =
  if writable E (WpaConfigPath E) then mergeWpa interfaces new_wpa (storedWPAs w)
  else storedWPAs w.
Proof.
  unfold storedWPAs at 1. rewrite insertWpaConfigAndSave_stored.
  now destruct (writable E (WpaConfigPath E)).
Qed.

Lemma storedPPPs_insert (E : Env) interfaces new_ppp w :
  storedPPPs (fst (insertPPPConfigAndSave E interfaces new_ppp w)) =
  if writable E (PPPConfigPath E) then mergePPP interfaces new_ppp (storedPPPs w)
  else storedPPPs w.
Proof.
  unfold storedPPPs at 1. rewrite insertPPPConfigAndSave_stored.
  now destruct (writable E (PPPConfigPath E)).
Qed.

(** C8. Merging the same record twice with the same interface list leaves
    the store as merging it once does, for the WPA and for the PPP
    collection, whatever the collection, the interface list and the record. *)
Theorem merge_twice_is_merge_once (E : Env) (interfaces : list InterfaceConfig)
    (new_wpa : WPAIface) (new_ppp : PPPIface) (w : World) :
  wpa_json (fst (insertWpaConfigAndSave E interfaces new_wpa
                   (fst (insertWpaConfigAndSave E interfaces new_wpa w))))
  = wpa_json (fst (insertWpaConfigAndSave E interfaces new_wpa w))
  /\
  ppp_json (fst (insertPPPConfigAndSave E interfaces new_ppp
                   (fst (insertPPPConfigAndSave E interfaces new_ppp w))))
  = ppp_json (fst (insertPPPConfigAndSave E interfaces new_ppp w)).
Proof.
  split.
  - rewrite (insertWpaConfigAndSave_stored E interfaces new_wpa
               (fst (insertWpaConfigAndSave E interfaces new_wpa w))).
    rewrite storedWPAs_insert, insertWpaConfigAndSave_stored.
    destruct (writable E (WpaConfigPath E)); [|reflexivity].
    now rewrite mergeWpa_idempotent.
  - rewrite (insertPPPConfigAndSave_stored E interfaces new_ppp
               (fst (insertPPPConfigAndSave E interfaces new_ppp w))).
    rewrite storedPPPs_insert, insertPPPConfigAndSave_stored.
    destruct (writable E (PPPConfigPath E)); [|reflexivity].
    now rewrite mergePPP_idempotent.
Qed.

(** The merge stops at the first record of the submitted name: the records
    after it are not in the result. *)
Lemma mergeWpa_stops_at_match interfaces new_wpa (before : list WPAIface) wpa after :
  Forall (fun r => WPAIface.Iface r <> WPAIface.Iface new_wpa) before ->
  WPAIface.Iface wpa = WPAIface.Iface new_wpa ->
  mergeWpa interfaces new_wpa (before ++ wpa :: after)
  = map (refreshWpa interfaces) before ++ [new_wpa].
Proof.
  intros Hb Hm. induction Hb as [|r rest Hr _ IH]; simpl.
  - rewrite mergeWpa_cons. apply String.eqb_eq in Hm. now rewrite Hm.
  - rewrite mergeWpa_cons. apply String.eqb_neq in Hr. now rewrite Hr, IH.
Qed.

(** A record of empty name is not appended. *)
Lemma mergeWpa_empty_Iface interfaces new_wpa (stored : list WPAIface) :
  WPAIface.Iface new_wpa = "" ->
  Forall (fun r => WPAIface.Iface r <> "") stored ->
  mergeWpa interfaces new_wpa stored = map (refreshWpa interfaces) stored.
Proof.
  intros He Hs. induction Hs as [|r rest Hr _ IH]; simpl.
  - now rewrite mergeWpa_nil, He.
  - rewrite mergeWpa_cons, He. apply String.eqb_neq in Hr. now rewrite Hr, IH.
Qed.

(** C1. The stored collection holds a record for wlan1 followed by a record
    for wlan2; a record for wlan1 is merged.  The stored collection is then
    the submitted record alone: the record for wlan2 is gone. *)
Theorem insertWpaConfigAndSave_drops_records_after_match :
  storedWPAs Scenario.twoStored = [Scenario.wlan1 true "WPA-PSK"; Scenario.wlan2]
  /\ storedWPAs
       (fst (insertWpaConfigAndSave (Scenario.env Scenario.bothInterfaces true)
               Scenario.bothInterfaces (Scenario.wlan1 false "SAE") Scenario.twoStored))
     = [Scenario.wlan1 false "SAE"].
Proof. split; reflexivity. Qed.

(** C10. The name pattern matches the empty string.  When a record of empty
    name is merged into a collection that has no record of empty name, the
    collection stored is the old one with every record's Enabled flag
    recomputed from the interface list: the submitted record is not in it. *)
Theorem empty_Iface_only_refreshes (E : Env) (interfaces : list InterfaceConfig)
    (new_wpa : WPAIface) (w : World) :
  WPAIface.Iface new_wpa = "" ->
  Forall (fun r => WPAIface.Iface r <> "") (storedWPAs w) ->
  regexp_MatchString ifacePattern (WPAIface.Iface new_wpa) = true
  /\ wpa_json (fst (insertWpaConfigAndSave E interfaces new_wpa w))
     = (if writable E (WpaConfigPath E)
        then Some (WPASupplicantConfig.mk (map (refreshWpa interfaces) (storedWPAs w)))
        else wpa_json w)
  /\ ~ In new_wpa (map (refreshWpa interfaces) (storedWPAs w)).
Proof.
  intros He Hs. split; [now rewrite He|]. split.
  - rewrite insertWpaConfigAndSave_stored.
    now rewrite (mergeWpa_empty_Iface interfaces new_wpa (storedWPAs w) He Hs).
  - rewrite in_map_iff. intros (r & Hr & Hin).
    rewrite Forall_forall in Hs. apply (Hs r); [now apply list_elem_of_In|].
    rewrite <- He, <- Hr. reflexivity.
Qed.

Lemma empty_Iface_only_refreshes_witness :
  wpa_json
    (fst (insertWpaConfigAndSave (Scenario.env [] true) []
            (WPAIface.mk "" true []) Scenario.twoStored))
  = Some (WPASupplicantConfig.mk
            (map (refreshWpa []) [Scenario.wlan1 true "WPA-PSK"; Scenario.wlan2])).
Proof.
  refine (proj1 (proj2 (empty_Iface_only_refreshes (Scenario.env [] true) []
                          (WPAIface.mk "" true []) Scenario.twoStored eq_refl _))).
  repeat constructor; discriminate.
Defined.

(** ** The handlers *)

(** The flag the loop of [updateWpaSupplicantConfig] computes: some network
    of the request has [Disabled] false. *)
Lemma validateNetworks_enabled (networks : list WPANetwork) :
  forall enabled enabled',
    validateNetworks networks enabled = (enabled', None) ->
    enabled' = enabled || existsb (fun n => negb (WPANetwork.Disabled n)) networks.
Proof.
  induction networks as [|n rest IH]; intros enabled enabled'; simpl.
  - intros [= <-]. now rewrite orb_false_r.
  - destruct (WPANetwork_Validate _); [discriminate|].
    intros H. apply IH in H. rewrite H.
    destruct enabled, (WPANetwork.Disabled n); reflexivity.
Qed.

(** C3. A record whose one network has an empty KeyMgmt is submitted, all
    else valid.  The request is accepted, and the network is stored with
    KeyMgmt still empty: the default went to the loop's copy of the entry. *)
Theorem updateWpaSupplicantConfig_stores_empty_KeyMgmt :
  snd (updateWpaSupplicantConfig (Scenario.env [] true)
         (inr (Scenario.wlan1 true "")) Scenario.emptyWorld) = HttpOK
  /\ storedWPAs
       (fst (updateWpaSupplicantConfig (Scenario.env [] true)
               (inr (Scenario.wlan1 true "")) Scenario.emptyWorld))
     = [WPAIface.mk "wlan1" true [WPANetwork.mk false "secret123" "Home" "" "" ""]]
  /\ WPANetwork_Validate (WPANetwork.mk false "secret123" "Home" "" "" "") <> None.
Proof. repeat split; [vm_compute; reflexivity..|discriminate]. Qed.

(** C4, at the scenario: wlan1 is stored enabled and is submitted again with
    Enabled false and the same network, which has Disabled false; the plugin
    is running, so [enablePlugin] answers false.  The plugin manager is asked
    to enable WIFI-UPLINK, and then to restart it. *)
Lemma resubmit_disabled_calls_enablePlugin :
  calls (fst (updateWpaSupplicantConfig (Scenario.env [] false)
                (inr Scenario.wlan1Disabled) Scenario.wlan1Stored))
  = [UpdateInterfaceType "wlan1" "Uplink" "wifi" false;
     EnablePlugin "WIFI-UPLINK"; RestartPlugin "WIFI-UPLINK"]
  /\ ~ (In (RestartPlugin "WIFI-UPLINK")
          (calls (fst (updateWpaSupplicantConfig (Scenario.env [] false)
                         (inr Scenario.wlan1Disabled) Scenario.wlan1Stored)))
        /\ ~ In (EnablePlugin "WIFI-UPLINK")
               (calls (fst (updateWpaSupplicantConfig (Scenario.env [] false)
                              (inr Scenario.wlan1Disabled) Scenario.wlan1Stored)))).
Proof.
  assert (calls (fst (updateWpaSupplicantConfig (Scenario.env [] false)
                        (inr Scenario.wlan1Disabled) Scenario.wlan1Stored))
          = [UpdateInterfaceType "wlan1" "Uplink" "wifi" false;
             EnablePlugin "WIFI-UPLINK"; RestartPlugin "WIFI-UPLINK"]) as Hc
    by (vm_compute; reflexivity).
  split; [exact Hc|]. rewrite Hc. intros [_ Hn]. apply Hn. simpl. auto.
Qed.

(** C4, amended. A record is submitted whose name passes the name check,
    whose networks all validate and one of whose networks has Disabled false;
    the registry accepts the update and the merge succeeds.  Whatever the
    record's Enabled flag, false included, the plugin manager is asked to
    enable WIFI-UPLINK, and is asked to restart it afterwards exactly when
    [enablePlugin] answers that it did not start it. *)
Theorem updateWpaSupplicantConfig_plugin_calls (E : Env) (wpa : WPAIface) (w : World)
    (interfaces : list InterfaceConfig) :
  regexp_MatchString ifacePattern (WPAIface.Iface wpa) = true ->
  snd (validateNetworks (WPAIface.Networks wpa) false) = None ->
  (exists n, In n (WPAIface.Networks wpa) /\ WPANetwork.Disabled n = false) ->
  registryAnswer E (calls w) (WPAIface.Iface wpa) "Uplink" "wifi" (WPAIface.Enabled wpa)
    = inr interfaces ->
  snd (insertWpaConfigAndSave E interfaces wpa
         (add_call (UpdateInterfaceType (WPAIface.Iface wpa) "Uplink" "wifi"
                      (WPAIface.Enabled wpa)) w)) = None ->
  snd (updateWpaSupplicantConfig E (inr wpa) w) = HttpOK
  /\ calls (fst (updateWpaSupplicantConfig E (inr wpa) w))
     = calls w
       ++ [UpdateInterfaceType (WPAIface.Iface wpa) "Uplink" "wifi" (WPAIface.Enabled wpa);
           EnablePlugin "WIFI-UPLINK"]
       ++ (if pluginStarted E
                (calls w ++ [UpdateInterfaceType (WPAIface.Iface wpa) "Uplink" "wifi"
                               (WPAIface.Enabled wpa)])
                "WIFI-UPLINK"
           then []
           else [RestartPlugin "WIFI-UPLINK"]).
Proof.
  intros Hname Hvalid (n & Hin & Hn) Hreg Hins.
  unfold updateWpaSupplicantConfig. rewrite Hname. cbn [negb].
  destruct (validateNetworks (WPAIface.Networks wpa) false) as [enabled verr] eqn:Hv.
  simpl in Hvalid. subst verr.
  apply validateNetworks_enabled in Hv. cbn [orb] in Hv.
  assert (enabled = true) as ->.
  { rewrite Hv. apply existsb_exists. exists n. split; [exact Hin|now rewrite Hn]. }
  unfold updateInterfaceType. rewrite Hreg.
  pose proof (insertWpaConfigAndSave_calls E interfaces wpa
                (add_call (UpdateInterfaceType (WPAIface.Iface wpa) "Uplink" "wifi"
                             (WPAIface.Enabled wpa)) w)) as Hcalls.
  destruct (insertWpaConfigAndSave E interfaces wpa _) as [w1 ierr].
  simpl in Hins, Hcalls. subst ierr.
  unfold enablePlugin, restartPlugin. rewrite Hcalls.
  cbn [add_call calls].
  destruct (pluginStarted E _ "WIFI-UPLINK"); cbn [negb fst snd add_call calls];
    (split; [reflexivity|]); rewrite Hcalls; cbn [add_call calls];
    rewrite <- ?app_assoc; reflexivity.
Qed.

Lemma updateWpaSupplicantConfig_plugin_calls_witness :
  calls (fst (updateWpaSupplicantConfig (Scenario.env [] false)
                (inr Scenario.wlan1Disabled) Scenario.wlan1Stored))
  = [] ++ [UpdateInterfaceType "wlan1" "Uplink" "wifi" false; EnablePlugin "WIFI-UPLINK"]
       ++ [RestartPlugin "WIFI-UPLINK"].
Proof.
  refine (proj2 (updateWpaSupplicantConfig_plugin_calls (Scenario.env [] false)
                   Scenario.wlan1Disabled Scenario.wlan1Stored
                   [InterfaceConfig.mk "wlan1" "Uplink" "wifi" false] _ _ _ _ _)).
  - vm_compute; reflexivity.
  - vm_compute; reflexivity.
  - exists (Scenario.home "WPA-PSK WPA-PSK-SHA256"). split; [now left|reflexivity].
  - reflexivity.
  - vm_compute; reflexivity.
Defined.

(** C5. A PPP record that fails validation is answered with a 400 that
    carries the validator's reason, and the world is as it was: no call to
    the interface registry or to the plugin manager, the PPP collection and
    the generated files untouched. *)
Theorem updatePPPConfig_rejects_before_any_effect (E : Env) (ppp : PPPIface) (w : World)
    (err : error) :
  PPPIface_Validate ppp = Some err ->
  updatePPPConfig E (inr ppp) w
  = (w, HttpError ("Failed to validate ppp " +:+ Error err) 400).
Proof. intros H. unfold updatePPPConfig. now rewrite H. Qed.

Lemma updatePPPConfig_rejects_before_any_effect_witness :
  PPPIface_Validate Scenario.badVlan = Some (Errorf "VLAN field must contain numeric value")
  /\ updatePPPConfig (Scenario.env [] true) (inr Scenario.badVlan) Scenario.emptyWorld
     = (Scenario.emptyWorld,
        HttpError "Failed to validate ppp VLAN field must contain numeric value" 400).
Proof.
  split; [reflexivity|].
  exact (updatePPPConfig_rejects_before_any_effect (Scenario.env [] true) Scenario.badVlan
           Scenario.emptyWorld (Errorf "VLAN field must contain numeric value") eq_refl).
Defined.

(** ** The PPP validator and the PPP files *)

Lemma PPPIface_Validate_Iface_any (p : PPPIface) (i : string) :
  PPPIface.Iface p <> "" -> i <> "" ->
  PPPIface_Validate (PPPIface.set_Iface i p) = PPPIface_Validate p.
Proof.
  intros Hp Hi. unfold PPPIface_Validate. destruct p as [iface en user secret vlan mtu].
  simpl in *. apply String.eqb_neq in Hp, Hi. now rewrite Hp, Hi.
Qed.

Lemma PPPIface_Validate_newline (p : PPPIface) :
  strings_Contains (PPPIface.Username p) nl = true
  \/ strings_Contains (PPPIface.Secret p) nl = true ->
  PPPIface_Validate p <> None.
Proof.
  unfold PPPIface_Validate. intros H.
  destruct (String.eqb (PPPIface.Iface p) ""); [discriminate|].
  destruct (String.eqb (PPPIface.Username p) ""); [discriminate|].
  destruct (strings_Contains (PPPIface.Username p) nl); [discriminate|].
  destruct H as [H|H]; [discriminate|]. rewrite H. discriminate.
Qed.

(** C9. [PPPIface.Validate] looks at Iface for emptiness only: replacing a
    non-empty Iface by any other non-empty one does not change its verdict,
    and there is an accepted record whose Iface holds a newline.  The name
    goes as it is into the path of the record's provider file and into the
    text the provider template writes.  A newline in Username or in Secret
    is rejected. *)
Theorem PPPIface_Validate_accepts_newline_in_Iface :
  (exists p : PPPIface,
      PPPIface_Validate p = None
      /\ strings_Contains (PPPIface.Iface p) nl = true)
  /\ (forall (p : PPPIface) (i : string),
         PPPIface.Iface p <> "" -> i <> "" ->
         PPPIface_Validate (PPPIface.set_Iface i p) = PPPIface_Validate p)
  /\ (forall (E : Env) (p : PPPIface),
         providerPath E p = TEST_PREFIX E +:+ "/etc/ppp/provider_" +:+ PPPIface.Iface p)
  /\ (forall p : PPPIface,
         fst (Execute "provider" providerTemplate (reflect_PPPIface p))
         = providerTextBeforeBSSID p)
  /\ (forall p : PPPIface,
         strings_Contains (PPPIface.Username p) nl = true
         \/ strings_Contains (PPPIface.Secret p) nl = true ->
         PPPIface_Validate p <> None).
Proof.
  split; [exists Scenario.twoLineIface; split; reflexivity|].
  split; [exact PPPIface_Validate_Iface_any|].
  split; [reflexivity|].
  split; [intros p; now rewrite provider_Execute|].
  exact PPPIface_Validate_newline.
Qed.

(** C7. The secrets template gives, on every PPP collection, the heading,
    one line with the user name, the wildcard and the secret per stored
    record, and the tail; [writePPP] writes that text to the secrets file.
    The Enabled flags play no part: with every flag set to false the text
    is the same.  [writeWPAs], for its part, writes nothing for records whose
    Enabled is false. *)
Theorem chapSecrets_lists_every_record (E : Env) (interfaces : list InterfaceConfig)
    (config : PPPConfig) (wpas : list WPAIface) (w : World) :
  Execute "chap-secrets" chapSecretsTemplate (reflect_PPPConfig config)
  = (chapSecretsText config, None)
  /\ files (fst (writePPP E interfaces config w))
     = (if writable E (chapSecretsPath E)
        then <[chapSecretsPath E := chapSecretsText config]> (files w)
        else files w)
  /\ chapSecretsText (PPPConfig.mk (map (PPPIface.set_Enabled false) (PPPConfig.PPPs config)))
     = chapSecretsText config
  /\ writeWPAs E interfaces
       (WPASupplicantConfig.mk (map (WPAIface.set_Enabled false) wpas)) w
     = (w, None).
Proof.
  split; [apply chapSecrets_Execute|]. split; [|split].
  - rewrite writePPP_result. now destruct (writable E _).
  - unfold chapSecretsText. simpl PPPConfig.PPPs. rewrite map_map. reflexivity.
  - unfold writeWPAs. apply writeWPAs_range_disabled.
    simpl. apply Forall_forall. intros r Hr.
    apply list_elem_of_In, in_map_iff in Hr as (r0 & <- & _). reflexivity.
Qed.

(** C2. The collection holds one validated record.  [writePPP] writes the
    secrets file and then returns the execution error of the provider
    template; no provider file is written. *)
Theorem writePPP_fails_on_a_validated_record :
  PPPIface_Validate Scenario.alice = None
  /\ snd (writePPP (Scenario.env [] true) [] (PPPConfig.mk [Scenario.alice])
            Scenario.emptyWorld)
     = Some (ExecError "provider" "BSSID" "main.PPPIface")
  /\ files (fst (writePPP (Scenario.env [] true) [] (PPPConfig.mk [Scenario.alice])
                   Scenario.emptyWorld))
     !! providerPath (Scenario.env [] true) Scenario.alice = None.
Proof.
  split; [reflexivity|]. rewrite writePPP_result. simpl. split; [reflexivity|].
  rewrite lookup_insert_ne by discriminate. apply lookup_empty.
Qed.

(** ** The name check and the WPA template *)

Lemma nullable_lang (r : regex) : nullable r = true -> lang r "".
Proof.
  induction r as [| |p|r IHr s IHs|r IHr s IHs|r IHr]; simpl; intros H;
    try discriminate.
  - constructor.
  - apply andb_prop in H as [Hr Hs].
    change "" with ("" +:+ ""). constructor; auto.
  - apply orb_prop in H as [H|H]; [apply lang_Alt_l|apply lang_Alt_r]; auto.
  - constructor.
Qed.

Lemma deriv_lang (c : ascii) (r : regex) :
  forall s, lang (deriv c r) s -> lang r (String c s).
Proof.
  induction r as [| |p|r IHr t IHt|r IHr t IHt|r IHr]; simpl; intros s H.
  - inversion H.
  - inversion H.
  - destruct (p c) eqn:Hp; inversion H; subst. now constructor.
  - destruct (nullable r) eqn:Hn.
    + inversion H as [| | |? ? ? H1|? ? ? H1| |]; subst.
      * inversion H1 as [| |? ? x y Hx Hy| | | |]; subst.
        change (String c (x +:+ y)) with (String c x +:+ y).
        constructor; auto.
      * change (String c s) with ("" +:+ String c s).
        constructor; [now apply nullable_lang|auto].
    + inversion H as [| |? ? x y Hx Hy| | | |]; subst.
      change (String c (x +:+ y)) with (String c x +:+ y).
      constructor; auto.
  - inversion H; subst; [apply lang_Alt_l|apply lang_Alt_r]; auto.
  - inversion H as [| |? ? x y Hx Hy| | | |]; subst.
    change (String c (x +:+ y)) with (String c x +:+ y).
    constructor; auto.
Qed.

(** What the matcher accepts is in the language of the pattern. *)
Lemma regexp_MatchString_lang (s : string) :
  forall r, regexp_MatchString r s = true -> lang r s.
Proof.
  induction s as [|c s IH]; simpl; intros r H.
  - now apply nullable_lang.
  - apply deriv_lang, IH, H.
Qed.

Lemma Forall_bytes_app (P : ascii -> Prop) (x y : string) :
  Forall P (list_ascii_of_string x) -> Forall P (list_ascii_of_string y) ->
  Forall P (list_ascii_of_string (x +:+ y)).
Proof.
  induction x as [|a x IH]; intros Hx Hy; [exact Hy|].
  change (Forall P (a :: list_ascii_of_string (x +:+ y))).
  inversion Hx; subst. constructor; auto.
Qed.

Lemma lang_Star_bytes (P : ascii -> Prop) (r : regex) :
  (forall x, lang r x -> Forall P (list_ascii_of_string x)) ->
  forall s, lang (Star r) s -> Forall P (list_ascii_of_string s).
Proof.
  intros Hr s H. remember (Star r) as q eqn:Hq.
  induction H as [| | | | | |r' x y Hx _ Hy IHy]; try discriminate.
  - constructor.
  - injection Hq as ->. apply Forall_bytes_app; auto.
Qed.

(** A name that passes the name check is made of letters, digits and dots. *)
Lemma ifacePattern_bytes (iface : string) :
  regexp_MatchString ifacePattern iface = true ->
  Forall (fun c => ifaceByte c = true) (list_ascii_of_string iface).
Proof.
  intros H. apply regexp_MatchString_lang in H. unfold ifacePattern in H.
  assert (forall x, lang (Class alnum) x ->
                    Forall (fun c => ifaceByte c = true) (list_ascii_of_string x)) as Ha.
  { intros x Hx. inversion Hx; subst. repeat constructor.
    unfold ifaceByte. now apply orb_true_intro; left. }
  inversion H as [| |? ? x y Hx Hy| | | |]; subst.
  apply Forall_bytes_app.
  - revert Hx. now apply lang_Star_bytes.
  - revert Hy. apply lang_Star_bytes. intros z Hz.
    inversion Hz as [| |? ? d t Hd Ht| | | |]; subst.
    apply Forall_bytes_app.
    + inversion Hd; subst. repeat constructor.
      unfold ifaceByte. now apply orb_true_intro; right.
    + revert Ht. now apply lang_Star_bytes.
Qed.

Lemma ifaceByte_no_delimiter (s : string) :
  Forall (fun c => ifaceByte c = true) (list_ascii_of_string s) ->
  strings_Contains s "{{" = false.
Proof.
  induction s as [|c s IH]; intros H; [reflexivity|].
  inversion H as [|? ? Hc Hs]; subst.
  cbn [strings_Contains strings_HasPrefix]. rewrite (IH Hs), orb_false_r.
  destruct (Ascii.eqb_spec "{" c) as [<-|_]; [discriminate Hc|reflexivity].
Qed.

(** For a name that passes the name check the WPA template parses, with the
    name as literal text. *)
Lemma parseWpaTemplate_checked_name (iface : string) :
  regexp_MatchString ifacePattern iface = true ->
  parseWpaTemplate iface = inr (wpaTemplate iface).
Proof.
  intros H. unfold parseWpaTemplate.
  now rewrite (ifaceByte_no_delimiter iface (ifacePattern_bytes iface H)).
Qed.

(** ** What the WPA handler stores *)

Lemma mergeWpa_ends_with_new interfaces new_wpa (stored : list WPAIface) :
  WPAIface.Iface new_wpa <> "" ->
  exists before, mergeWpa interfaces new_wpa stored = before ++ [new_wpa].
Proof.
  intros Hne. apply String.eqb_neq in Hne.
  induction stored as [|r rest [before IH]].
  - exists []. now rewrite mergeWpa_nil, Hne.
  - rewrite mergeWpa_cons.
    destruct (String.eqb (WPAIface.Iface r) (WPAIface.Iface new_wpa)).
    + now exists [].
    + exists (refreshWpa interfaces r :: before). now rewrite IH.
Qed.

(** An accepted record is stored as it was submitted, its networks
    included: the loop over the networks validates and changes nothing. *)
Lemma updateWpaSupplicantConfig_stores_submitted_record (E : Env) (wpa : WPAIface)
    (w : World) :
  snd (updateWpaSupplicantConfig E (inr wpa) w) = HttpOK ->
  WPAIface.Iface wpa <> "" ->
  exists before,
    storedWPAs (fst (updateWpaSupplicantConfig E (inr wpa) w)) = before ++ [wpa].
Proof.
  unfold updateWpaSupplicantConfig.
  destruct (regexp_MatchString ifacePattern (WPAIface.Iface wpa)); cbn [negb];
    [|discriminate].
  destruct (validateNetworks (WPAIface.Networks wpa) false) as [enabled [e|]];
    [discriminate|].
  unfold updateInterfaceType.
  destruct (registryAnswer E _ _ _ _ _) as [e|interfaces]; [discriminate|].
  match goal with |- context [insertWpaConfigAndSave E interfaces wpa ?w0] =>
    set (w1 := w0) end.
  pose proof (storedWPAs_insert E interfaces wpa w1) as Hs.
  destruct (insertWpaConfigAndSave E interfaces wpa w1) as [w2 [e|]] eqn:Hi;
    [discriminate|].
  intros _ Hne.
  assert (writable E (WpaConfigPath E) = true) as Hw.
  { unfold insertWpaConfigAndSave in Hi.
    destruct (writable E (WpaConfigPath E)); [reflexivity|discriminate Hi]. }
  rewrite Hw in Hs. simpl in Hs.
  destruct (mergeWpa_ends_with_new interfaces wpa (storedWPAs w1) Hne) as [before Hb].
  exists before. rewrite <- Hb, <- Hs.
  unfold enablePlugin, restartPlugin.
  destruct enabled; [destruct (pluginStarted E _ _)|]; reflexivity.
Qed.

(** ** What the PPP handler answers *)

Lemma mergePPP_not_nil interfaces new_ppp (stored : list PPPIface) :
  PPPIface.Iface new_ppp <> "" -> mergePPP interfaces new_ppp stored <> [].
Proof.
  intros Hne. apply String.eqb_neq in Hne.
  destruct stored as [|r rest].
  - rewrite mergePPP_nil, Hne. discriminate.
  - rewrite mergePPP_cons.
    destruct (String.eqb (PPPIface.Iface r) (PPPIface.Iface new_ppp)); discriminate.
Qed.

Lemma PPPIface_Validate_Iface_not_empty (p : PPPIface) :
  PPPIface_Validate p = None -> PPPIface.Iface p <> "".
Proof.
  unfold PPPIface_Validate.
  destruct (String.eqb_spec (PPPIface.Iface p) ""); [discriminate|auto].
Qed.

(** With the provider template as it is, [insertPPPConfigAndSave] returns an
    error for every record of non-empty name, and [updatePPPConfig] never
    answers 200. *)
Lemma insertPPPConfigAndSave_fails (E : Env) interfaces (new_ppp : PPPIface) (w : World) :
  PPPIface.Iface new_ppp <> "" ->
  snd (insertPPPConfigAndSave E interfaces new_ppp w) <> None.
Proof.
  intros Hne. unfold insertPPPConfigAndSave.
  destruct (writable E (PPPConfigPath E)); [|discriminate].
  rewrite writePPP_result.
  destruct (writable E (chapSecretsPath E)); [|discriminate].
  cbn [snd PPPConfig.PPPs].
  match goal with |- context [mergePPP interfaces new_ppp ?l] =>
    pose proof (mergePPP_not_nil interfaces new_ppp l Hne) as Hnil;
    destruct (mergePPP interfaces new_ppp l) end; [congruence|discriminate].
Qed.

Lemma updatePPPConfig_never_OK (E : Env) (body : error + PPPIface) (w : World) :
  snd (updatePPPConfig E body w) <> HttpOK.
Proof.
  unfold updatePPPConfig. destruct body as [e|ppp]; [discriminate|].
  destruct (PPPIface_Validate ppp) eqn:Hv; [discriminate|].
  apply PPPIface_Validate_Iface_not_empty in Hv.
  unfold updateInterfaceType.
  destruct (registryAnswer E _ _ _ _ _) as [e|interfaces]; [discriminate|].
  match goal with |- context [insertPPPConfigAndSave E interfaces ppp ?w0] =>
    pose proof (insertPPPConfigAndSave_fails E interfaces ppp w0 Hv) as Hf;
    destruct (insertPPPConfigAndSave E interfaces ppp w0) as [w1 [e|]] end;
    [discriminate|]. now simpl in Hf.
Qed.

(** ** The library functions on examples *)

Example strconv_Atoi_examples :
  strconv_Atoi "42" = inr 42%Z /\ strconv_Atoi "-7" = inr (-7)%Z /\
  strconv_Atoi "+1500" = inr 1500%Z /\
  strconv_Atoi "abc" = inl ErrSyntax /\ strconv_Atoi "+" = inl ErrSyntax /\
  strconv_Atoi "" = inl ErrSyntax /\ strconv_Atoi "1_0" = inl ErrSyntax /\
  strconv_Atoi "9223372036854775807" = inr maxInt /\
  strconv_Atoi "9223372036854775808" = inl ErrRange.
Proof. repeat split; reflexivity. Qed.

Example regexp_MatchString_examples :
  regexp_MatchString bssidPattern "00:11:22:aa:BB:cc" = true /\
  regexp_MatchString bssidPattern "00-11-22-aa-BB-cc" = true /\
  regexp_MatchString bssidPattern "00:11:22:aa:BB:c" = false /\
  regexp_MatchString bssidPattern "00:11:22:aa:BB:cc:" = false /\
  regexp_MatchString ifacePattern "wlan1" = true /\
  regexp_MatchString ifacePattern "eth0.100" = true /\
  regexp_MatchString ifacePattern ".." = true /\
  regexp_MatchString ifacePattern "wlan 1" = false /\
  regexp_MatchString ifacePattern "wlan1/x" = false.
Proof. repeat split; vm_compute; reflexivity. Qed.

Example strings_Split_examples :
  strings_Split "WPA-PSK SAE" " " = ["WPA-PSK"; "SAE"] /\
  strings_Split "" " " = [""] /\
  strings_Split "WPA-PSK  SAE" " " = ["WPA-PSK"; ""; "SAE"] /\
  strings_Split " SAE " " " = [""; "SAE"; ""].
Proof. repeat split; reflexivity. Qed.

(** Scenario A: the file generated for wlan1 with one enabled network and no
    priority or BSSID. *)
Example writeWPAs_scenario_A :
  files (fst (updateWpaSupplicantConfig (Scenario.env [] true)
                (inr (Scenario.wlan1 true "WPA-PSK WPA-PSK-SHA256")) Scenario.emptyWorld))
  !! "/configs/wifi_uplink/wpa_wlan1.conf"
  = Some ("# Note this is an autogenerated file" +:+ nl +:+
          "      ctrl_interface=DIR=/var/run/wpa_supplicant_wlan1" +:+ nl +:+
          "      " +:+ nl +:+
          "      " +:+ nl +:+
          "      network={" +:+ nl +:+
          "      " +:+ tab +:+ "ssid=" +:+ dq +:+ "Home" +:+ dq +:+ nl +:+
          "      " +:+ tab +:+ "psk=" +:+ dq +:+ "secret123" +:+ dq +:+ nl +:+
          "      " +:+ tab +:+ nl +:+
          "      " +:+ tab +:+ nl +:+
          "        key_mgmt=WPA-PSK WPA-PSK-SHA256" +:+ nl +:+
          "      }" +:+ nl +:+
          "      " +:+ nl +:+
          "      ").
Proof. vm_compute. reflexivity. Qed.

(** * Further properties *)

(** ** The matcher is complete *)

Lemma append_eq_nil (x y : string) : x +:+ y = "" -> x = "" /\ y = "".
Proof. destruct x; [now split|discriminate]. Qed.

Lemma lang_nullable (r : regex) (s : string) : lang r s -> s = "" -> nullable r = true.
Proof.
  induction 1 as [|p c Hp|r t x y _ IHx _ IHy|r t x _ IH|r t x _ IH|r|r x y _ _ _ _];
    intros He; simpl; try reflexivity; try discriminate.
  - apply append_eq_nil in He as [-> ->]. now rewrite IHx, IHy.
  - now rewrite IH.
  - rewrite IH by assumption. apply orb_true_r.
Qed.

Lemma lang_deriv (r : regex) (z : string) :
  lang r z -> forall c s, z = String c s -> lang (deriv c r) s.
Proof.
  induction 1 as [|p a Hp|r t x y Hx IHx Hy IHy|r t x _ IH|r t x _ IH|r|r x y Hx IHx Hy IHy];
    intros c s He; simpl; try discriminate.
  - injection He as <- <-. rewrite Hp. constructor.
  - destruct x as [|a x].
    + change (y = String c s) in He.
      rewrite (lang_nullable r "" Hx eq_refl). apply lang_Alt_r. now apply IHy.
    + change (String a (x +:+ y) = String c s) in He. injection He as -> <-.
      assert (lang (Cat (deriv c r) t) (x +:+ y)) as Hc
        by (constructor; [now apply IHx|exact Hy]).
      destruct (nullable r); [now apply lang_Alt_l|exact Hc].
  - apply lang_Alt_l. now apply IH.
  - apply lang_Alt_r. now apply IH.
  - destruct x as [|a x].
    + change (y = String c s) in He. now apply (IHy c s).
    + change (String a (x +:+ y) = String c s) in He. injection He as -> <-.
      constructor; [now apply IHx|exact Hy].
Qed.

Lemma lang_regexp_MatchString (s : string) :
  forall r, lang r s -> regexp_MatchString r s = true.
Proof.
  induction s as [|c s IH]; simpl; intros r H.
  - now apply (lang_nullable r "").
  - apply IH. now apply (lang_deriv r (String c s)).
Qed.

(** ** The name check and the BSSID check, byte by byte *)

Lemma ifaceByte_lang (s : string) :
  Forall (fun c => ifaceByte c = true) (list_ascii_of_string s) ->
  lang ifacePattern s.
Proof.
  unfold ifacePattern.
  induction s as [|c s IH]; intros H.
  - change "" with ("" +:+ ""). constructor; constructor.
  - inversion H as [|? ? Hc Hs]; subst. specialize (IH Hs).
    inversion IH as [| |? ? x y Hx Hy| | | |]; subst.
    unfold ifaceByte in Hc. destruct (alnum c) eqn:Ha.
    + change (String c (x +:+ y)) with ((String c "" +:+ x) +:+ y).
      constructor; [|exact Hy]. constructor; [now constructor|exact Hx].
    + simpl in Hc.
      change (String c (x +:+ y)) with ("" +:+ ((String c "" +:+ x) +:+ y)).
      constructor; [constructor|].
      constructor; [|exact Hy].
      constructor; [now constructor|exact Hx].
Qed.

(** X1. The name check of [updateWpaSupplicantConfig] lets through exactly
    the names made of letters, digits and dots, the empty name and names of
    dots alone included. *)
Theorem ifacePattern_accepts_exactly (iface : string) :
  regexp_MatchString ifacePattern iface = true
  <-> Forall (fun c => ifaceByte c = true) (list_ascii_of_string iface).
Proof.
  split; [apply ifacePattern_bytes|].
  intros H. now apply lang_regexp_MatchString, ifaceByte_lang.
Qed.

Ltac invert_lang :=
  repeat match goal with
         | H : lang (Cat _ _) _ |- _ => inversion H; subst; clear H
         | H : lang (Class _) _ |- _ => inversion H; subst; clear H
         | H : lang Empty _ |- _ => inversion H; subst; clear H
         end.

Lemma bssidPattern_shape_bytes (bssid : string) :
  regexp_MatchString bssidPattern bssid = true ->
  Forall (fun c => macByte c = true) (list_ascii_of_string bssid).
Proof.
  intros H. apply regexp_MatchString_lang in H.
  unfold bssidPattern in H. cbn [Rep] in H. invert_lang.
  cbv [String.append list_ascii_of_string].
  unfold macByte.
  repeat (apply List.Forall_cons;
          [ first [ match goal with
                    | H : hexdigit ?c = true |- context [hexdigit ?c] =>
                        rewrite H; reflexivity
                    end
                  | match goal with
                    | H : (Ascii.eqb ?c _ || _) = true |- context [hexdigit ?c] =>
                        destruct (hexdigit c); [reflexivity|exact H]
                    end ]
          | ]).
  apply List.Forall_nil.
Qed.

(** X2. A BSSID that passes the check of [WPANetwork.Validate] has exactly
    17 bytes, each a hexadecimal digit, a colon or a hyphen. *)
Theorem bssidPattern_shape (bssid : string) :
  regexp_MatchString bssidPattern bssid = true ->
  String.length bssid = 17
  /\ Forall (fun c => macByte c = true) (list_ascii_of_string bssid).
Proof.
  intros H. split; [|now apply bssidPattern_shape_bytes].
  apply regexp_MatchString_lang in H.
  unfold bssidPattern in H. cbn [Rep] in H. invert_lang. reflexivity.
Qed.

Lemma bssidPattern_shape_witness :
  String.length "00:11:22:aa:BB:cc" = 17
  /\ Forall (fun c => macByte c = true) (list_ascii_of_string "00:11:22:aa:BB:cc").
Proof. exact (bssidPattern_shape "00:11:22:aa:BB:cc" eq_refl). Defined.

(** ** No validated field holds a newline *)

Lemma strings_Contains_nl_false (s : string) :
  strings_Contains s nl = false -> newlineFree s.
Proof.
  unfold newlineFree. induction s as [|c s IH]; intros H; [constructor|].
  cbn [strings_Contains strings_HasPrefix nl] in H.
  apply orb_false_elim in H as [Hc Hs].
  constructor; [|now apply IH].
  intros ->. rewrite Ascii.eqb_refl in Hc. destruct s; simpl in Hc; discriminate Hc.
Qed.

Lemma newlineFree_bytes (P : ascii -> bool) (s : string) :
  P "010"%char = false ->
  Forall (fun c => P c = true) (list_ascii_of_string s) -> newlineFree s.
Proof.
  intros Hnl H. unfold newlineFree. eapply Forall_impl; [exact H|].
  intros c Hc ->. congruence.
Qed.

Lemma digit_in_range (c : ascii) (d : Z) : digit c = Some d -> in_range "0" "9" c = true.
Proof.
  unfold digit, in_range. intros H.
  destruct ((48 <=? Z.of_nat (nat_of_ascii c))%Z && (Z.of_nat (nat_of_ascii c) <=? 57)%Z)
    eqn:Hb; [|discriminate].
  apply andb_prop in Hb as [Hlo Hhi].
  apply Z.leb_le in Hlo, Hhi.
  change (nat_of_ascii "0") with 48%nat. change (nat_of_ascii "9") with 57%nat.
  apply andb_true_intro. split; apply Nat.leb_le; lia.
Qed.

Lemma digits_bytes (s : string) :
  forall acc n, digits s acc = Some n ->
  Forall (fun c => numeralByte c = true) (list_ascii_of_string s).
Proof.
  induction s as [|c s IH]; intros acc n H; [constructor|].
  simpl in H. destruct (digit c) as [d|] eqn:Hd; [|discriminate].
  constructor; [|eapply IH; exact H].
  unfold numeralByte. now rewrite (digit_in_range c d Hd).
Qed.

(** A string [strconv.Atoi] accepts is made of digits and signs. *)
Lemma strconv_Atoi_bytes (s : string) (v : Z) :
  strconv_Atoi s = inr v ->
  Forall (fun c => numeralByte c = true) (list_ascii_of_string s).
Proof.
  destruct s as [|c rest]; [discriminate|]. unfold strconv_Atoi.
  destruct (Ascii.eqb_spec c "-") as [->|Hm].
  - cbn [orb]. destruct rest as [|c' rest']; [discriminate|].
    destruct (digits (String c' rest') 0) as [n|] eqn:Hd; [|discriminate].
    intros _. constructor; [reflexivity|]. exact (digits_bytes _ _ _ Hd).
  - cbn [orb]. destruct (Ascii.eqb_spec c "+") as [->|Hp].
    + destruct rest as [|c' rest']; [discriminate|].
      destruct (digits (String c' rest') 0) as [n|] eqn:Hd; [|discriminate].
      intros _. constructor; [reflexivity|]. exact (digits_bytes _ _ _ Hd).
    + destruct (digits (String c rest) 0) as [n|] eqn:Hd; [|discriminate].
      intros _. exact (digits_bytes _ _ _ Hd).
Qed.

Lemma strconv_Atoi_newlineFree (s : string) :
  is_err (strconv_Atoi s) = false -> newlineFree s.
Proof.
  destruct (strconv_Atoi s) as [e|v] eqn:Ha; [discriminate|]. intros _.
  apply (newlineFree_bytes numeralByte); [reflexivity|].
  exact (strconv_Atoi_bytes s v Ha).
Qed.

Lemma newlineFree_app (x y : string) :
  newlineFree x -> newlineFree y -> newlineFree (x +:+ y).
Proof. apply Forall_bytes_app. Qed.

Lemma newlineFree_Join (parts : list string) :
  Forall newlineFree parts -> newlineFree (strings_Join parts " ").
Proof.
  unfold strings_Join. induction 1 as [|p rest Hp Hrest IH]; [constructor|].
  destruct rest as [|q rest]; [exact Hp|].
  rewrite concat_cons_cons.
  apply newlineFree_app; [exact Hp|].
  apply newlineFree_app; [|exact IH].
  repeat constructor. discriminate.
Qed.

Lemma validateKeyMgmtParts_newlineFree (k : string) :
  validateKeyMgmtParts (strings_Split k " ") = None -> newlineFree k.
Proof.
  intros H. apply validateKeyMgmtParts_None in H.
  rewrite <- (strings_Join_Split k " "). apply newlineFree_Join.
  eapply Forall_impl; [exact H|].
  simpl. intros t [<-|[<-|[<-|[]]]]; repeat constructor; discriminate.
Qed.

Lemma WPANetwork_Validate_newlineFree_fields (n : WPANetwork) :
  WPANetwork_Validate n = None ->
  newlineFree (WPANetwork.Password n)
  /\ newlineFree (WPANetwork.SSID n)
  /\ newlineFree (WPANetwork.Priority n)
  /\ newlineFree (WPANetwork.BSSID n)
  /\ newlineFree (WPANetwork.KeyMgmt n).
Proof.
  unfold WPANetwork_Validate.
  destruct (strings_Contains (WPANetwork.Password n) nl) eqn:Hpw; [discriminate|].
  destruct (strings_Contains (WPANetwork.SSID n) nl) eqn:Hs; [discriminate|].
  destruct (String.eqb_spec (WPANetwork.Priority n) "") as [Hp|Hp]; cbn [negb andb].
  - destruct (String.eqb_spec (WPANetwork.BSSID n) "") as [Hb|Hb]; cbn [negb andb].
    + destruct (String.eqb (WPANetwork.KeyMgmt n) ""); [discriminate|]. intros Hk.
      rewrite Hp, Hb. repeat split; try (now apply strings_Contains_nl_false);
        try constructor. now apply validateKeyMgmtParts_newlineFree.
    + destruct (regexp_MatchString bssidPattern (WPANetwork.BSSID n)) eqn:Hm;
        [|discriminate]. cbn [negb].
      destruct (String.eqb (WPANetwork.KeyMgmt n) ""); [discriminate|]. intros Hk.
      rewrite Hp. repeat split; try (now apply strings_Contains_nl_false);
        try constructor; [|now apply validateKeyMgmtParts_newlineFree].
      apply (newlineFree_bytes macByte); [reflexivity|].
      now apply bssidPattern_shape_bytes.
  - destruct (strconv_Atoi (WPANetwork.Priority n)) as [e|v] eqn:Ha; [discriminate|].
    cbn [is_err].
    assert (newlineFree (WPANetwork.Priority n)) as HP
      by (apply strconv_Atoi_newlineFree; now rewrite Ha).
    destruct (String.eqb_spec (WPANetwork.BSSID n) "") as [Hb|Hb]; cbn [negb andb].
    + destruct (String.eqb (WPANetwork.KeyMgmt n) ""); [discriminate|]. intros Hk.
      rewrite Hb. repeat split; try (now apply strings_Contains_nl_false);
        try assumption; try constructor. now apply validateKeyMgmtParts_newlineFree.
    + destruct (regexp_MatchString bssidPattern (WPANetwork.BSSID n)) eqn:Hm;
        [|discriminate]. cbn [negb].
      destruct (String.eqb (WPANetwork.KeyMgmt n) ""); [discriminate|]. intros Hk.
      repeat split; try (now apply strings_Contains_nl_false); try assumption;
        [|now apply validateKeyMgmtParts_newlineFree].
      apply (newlineFree_bytes macByte); [reflexivity|].
      now apply bssidPattern_shape_bytes.
Qed.

(** X3. No field of a network entry that [WPANetwork.Validate] accepts holds
    a newline: not Password or SSID, and not Priority, BSSID or KeyMgmt,
    whose checks do not look for one. *)
Theorem WPANetwork_Validate_newlineFree (n : WPANetwork) :
  WPANetwork_Validate n = None ->
  newlineFree (WPANetwork.Password n)
  /\ newlineFree (WPANetwork.SSID n)
  /\ newlineFree (WPANetwork.Priority n)
  /\ newlineFree (WPANetwork.BSSID n)
  /\ newlineFree (WPANetwork.KeyMgmt n).
Proof. apply WPANetwork_Validate_newlineFree_fields. Qed.

Lemma WPANetwork_Validate_newlineFree_witness :
  newlineFree "secret123" /\ newlineFree "Home" /\ newlineFree ""
  /\ newlineFree "" /\ newlineFree "WPA-PSK SAE".
Proof. exact (WPANetwork_Validate_newlineFree (Scenario.home "WPA-PSK SAE") eq_refl). Defined.

Lemma WPANetwork_Validate_default_KeyMgmt (n : WPANetwork) :
  WPANetwork.KeyMgmt n = "" ->
  WPANetwork_Validate (WPANetwork.set_KeyMgmt "WPA-PSK WPA-PSK-SHA256" n) = None ->
  newlineFree (WPANetwork.Password n)
  /\ newlineFree (WPANetwork.SSID n)
  /\ newlineFree (WPANetwork.Priority n)
  /\ newlineFree (WPANetwork.BSSID n)
  /\ newlineFree (WPANetwork.KeyMgmt n).
Proof.
  intros Hk H. apply WPANetwork_Validate_newlineFree_fields in H.
  destruct n as [d pw ssid k prio bssid]. simpl in *. subst k.
  destruct H as (?&?&?&?&_). repeat split; try assumption. constructor.
Qed.

Lemma validateNetworks_newlineFree_range (networks : list WPANetwork) (enabled : bool) :
  snd (validateNetworks networks enabled) = None ->
  Forall (fun n =>
            newlineFree (WPANetwork.Password n)
            /\ newlineFree (WPANetwork.SSID n)
            /\ newlineFree (WPANetwork.Priority n)
            /\ newlineFree (WPANetwork.BSSID n)
            /\ newlineFree (WPANetwork.KeyMgmt n)) networks.
Proof.
  revert enabled. induction networks as [|n rest IH]; intros enabled H; [constructor|].
  cbn [validateNetworks] in H.
  destruct (String.eqb_spec (WPANetwork.KeyMgmt n) "") as [Hk|Hk].
  - destruct (WPANetwork_Validate (WPANetwork.set_KeyMgmt _ n)) eqn:Hv;
      [discriminate|].
    constructor; [now apply WPANetwork_Validate_default_KeyMgmt|].
    eapply IH; exact H.
  - destruct (WPANetwork_Validate n) eqn:Hv; [discriminate|].
    constructor; [now apply WPANetwork_Validate_newlineFree_fields|].
    eapply IH; exact H.
Qed.

(** X4. When the loop of [updateWpaSupplicantConfig] over the networks ends
    without an error, no field of any submitted network holds a newline,
    the entries whose empty KeyMgmt was given the default included. *)
Theorem validateNetworks_newlineFree (networks : list WPANetwork) (enabled : bool) :
  snd (validateNetworks networks enabled) = None ->
  Forall (fun n =>
            newlineFree (WPANetwork.Password n)
            /\ newlineFree (WPANetwork.SSID n)
            /\ newlineFree (WPANetwork.Priority n)
            /\ newlineFree (WPANetwork.BSSID n)
            /\ newlineFree (WPANetwork.KeyMgmt n)) networks.
Proof. apply validateNetworks_newlineFree_range. Qed.

Lemma validateNetworks_newlineFree_witness :
  Forall (fun n =>
            newlineFree (WPANetwork.Password n)
            /\ newlineFree (WPANetwork.SSID n)
            /\ newlineFree (WPANetwork.Priority n)
            /\ newlineFree (WPANetwork.BSSID n)
            /\ newlineFree (WPANetwork.KeyMgmt n))
         [Scenario.home ""; Scenario.home "SAE"].
Proof.
  exact (validateNetworks_newlineFree [Scenario.home ""; Scenario.home "SAE"] false eq_refl).
Defined.

Lemma optional_numeral_newlineFree (s : string) :
  negb (String.eqb s "") && is_err (strconv_Atoi s) = false -> newlineFree s.
Proof.
  destruct (String.eqb_spec s "") as [->|_]; [constructor|].
  cbn [negb andb]. apply strconv_Atoi_newlineFree.
Qed.

(** X5. A record that [PPPIface.Validate] accepts has a non-empty Iface and
    Username, no newline in Username, Secret, VLAN or MTU, and an MTU that is
    empty or a numeral of value zero or more. *)
Theorem PPPIface_Validate_accepted (p : PPPIface) :
  PPPIface_Validate p = None ->
  PPPIface.Iface p <> ""
  /\ PPPIface.Username p <> ""
  /\ newlineFree (PPPIface.Username p)
  /\ newlineFree (PPPIface.Secret p)
  /\ newlineFree (PPPIface.VLAN p)
  /\ newlineFree (PPPIface.MTU p)
  /\ (PPPIface.MTU p = ""
      \/ exists v, strconv_Atoi (PPPIface.MTU p) = inr v /\ (0 <= v)%Z).
Proof.
  unfold PPPIface_Validate.
  destruct (String.eqb_spec (PPPIface.Iface p) "") as [|Hi]; [discriminate|].
  destruct (String.eqb_spec (PPPIface.Username p) "") as [|Hu]; [discriminate|].
  destruct (strings_Contains (PPPIface.Username p) nl) eqn:Hun; [discriminate|].
  destruct (strings_Contains (PPPIface.Secret p) nl) eqn:Hsn; [discriminate|].
  destruct (negb (String.eqb (PPPIface.VLAN p) "")
            && is_err (strconv_Atoi (PPPIface.VLAN p))) eqn:Hv; [discriminate|].
  apply optional_numeral_newlineFree in Hv as Hvlan.
  destruct (String.eqb_spec (PPPIface.MTU p) "") as [Hm|Hm]; cbn [negb andb].
  - intros _. rewrite Hm. repeat split; try (now apply strings_Contains_nl_false);
      try assumption. now left.
  - destruct (strconv_Atoi (PPPIface.MTU p)) as [e|v] eqn:Ha; [discriminate|].
    destruct (Z.ltb_spec v 0); [discriminate|]. intros _.
    repeat split; try (now apply strings_Contains_nl_false); try assumption.
    + apply (newlineFree_bytes numeralByte); [reflexivity|].
      exact (strconv_Atoi_bytes _ v Ha).
    + right. exists v. now split.
Qed.

Lemma PPPIface_Validate_accepted_witness :
  PPPIface.Iface Scenario.alice <> ""
  /\ PPPIface.Username Scenario.alice <> ""
  /\ newlineFree (PPPIface.Username Scenario.alice)
  /\ newlineFree (PPPIface.Secret Scenario.alice)
  /\ newlineFree (PPPIface.VLAN Scenario.alice)
  /\ newlineFree (PPPIface.MTU Scenario.alice)
  /\ (PPPIface.MTU Scenario.alice = ""
      \/ exists v, strconv_Atoi (PPPIface.MTU Scenario.alice) = inr v /\ (0 <= v)%Z).
Proof. exact (PPPIface_Validate_accepted Scenario.alice eq_refl). Defined.

(** ** The lookup in the interface list *)

(** X6. In [isWifiUplinkIfaceEnabled] and [isPPPUplinkIfaceEnabled] the
    first interface of the name decides, and the ones after it are not
    looked at: the answer is its Enabled flag when it is an uplink of the
    subtype, and false otherwise, whatever follows. *)
Theorem first_interface_of_the_name_decides (Name : string)
    (before : list InterfaceConfig) (iface : InterfaceConfig) (after : list InterfaceConfig) :
  Forall (fun i => InterfaceConfig.Name i <> Name) before ->
  InterfaceConfig.Name iface = Name ->
  isWifiUplinkIfaceEnabled Name (before ++ iface :: after)
  = (String.eqb (InterfaceConfig.Type_ iface) "Uplink"
     && String.eqb (InterfaceConfig.Subtype iface) "wifi"
     && InterfaceConfig.Enabled iface)
  /\ isPPPUplinkIfaceEnabled Name (before ++ iface :: after)
     = (String.eqb (InterfaceConfig.Type_ iface) "Uplink"
        && String.eqb (InterfaceConfig.Subtype iface) "ppp"
        && InterfaceConfig.Enabled iface).
Proof.
  intros Hb Hn. induction Hb as [|i rest Hi _ IH]; simpl.
  - apply String.eqb_eq in Hn. rewrite Hn.
    split; destruct (_ && _); reflexivity.
  - apply String.eqb_neq in Hi. rewrite Hi. exact IH.
Qed.

Lemma first_interface_of_the_name_decides_witness :
  isWifiUplinkIfaceEnabled "wlan1"
    ([InterfaceConfig.mk "eth0" "Uplink" "ppp" true]
     ++ InterfaceConfig.mk "wlan1" "AP" "" true
     :: [InterfaceConfig.mk "wlan1" "Uplink" "wifi" true])
  = false.
Proof.
  refine (proj1 (first_interface_of_the_name_decides "wlan1"
                   [InterfaceConfig.mk "eth0" "Uplink" "ppp" true]
                   (InterfaceConfig.mk "wlan1" "AP" "" true)
                   [InterfaceConfig.mk "wlan1" "Uplink" "wifi" true] _ eq_refl)).
  repeat constructor. discriminate.
Defined.

(** X7. An interface name without an entry in the interface list is enabled
    for neither technology, and no name is enabled for both. *)
Theorem uplink_enabled_for_one_subtype_at_most (Name : string)
    (interfaces : list InterfaceConfig) :
  (Forall (fun i => InterfaceConfig.Name i <> Name) interfaces ->
   isWifiUplinkIfaceEnabled Name interfaces = false
   /\ isPPPUplinkIfaceEnabled Name interfaces = false)
  /\ (isWifiUplinkIfaceEnabled Name interfaces
      && isPPPUplinkIfaceEnabled Name interfaces = false).
Proof.
  split.
  - induction 1 as [|i rest Hi _ IH]; simpl; [now split|].
    apply String.eqb_neq in Hi. now rewrite Hi.
  - induction interfaces as [|i rest IH]; simpl; [reflexivity|].
    destruct (String.eqb (InterfaceConfig.Name i) Name); [|exact IH].
    destruct (String.eqb (InterfaceConfig.Type_ i) "Uplink"); simpl; [|reflexivity].
    destruct (String.eqb_spec (InterfaceConfig.Subtype i) "wifi") as [->|_];
      simpl; [|reflexivity].
    apply andb_false_r.
Qed.

(** ** More on the merge *)

Ltac merge_overwrite nil_lemma cons_lemma stored Hsame :=
  let He := fresh "He" in
  let IH := fresh "IH" in
  induction stored as [|? ? IH];
  [ rewrite !nil_lemma, Hsame;
    match goal with |- context [String.eqb ?a ""] => destruct (String.eqb a "") eqn:He end;
    [ rewrite nil_lemma, He; reflexivity
    | rewrite cons_lemma, Hsame, String.eqb_refl; reflexivity ]
  | rewrite !cons_lemma, Hsame;
    match goal with |- context [String.eqb ?a ?b] => destruct (String.eqb a b) eqn:He end;
    [ rewrite cons_lemma, Hsame, String.eqb_refl; reflexivity
    | rewrite cons_lemma; simpl; rewrite He, IH; reflexivity ] ].

(** X8. The last write wins: merging a record and then a second record of
    the same name gives the collection that merging the second alone gives,
    in the WPA and in the PPP merge. *)
Theorem merge_last_write_wins (interfaces : list InterfaceConfig)
    (wpa1 wpa2 : WPAIface) (storedWpa : list WPAIface)
    (ppp1 ppp2 : PPPIface) (storedPPP : list PPPIface) :
  WPAIface.Iface wpa1 = WPAIface.Iface wpa2 ->
  PPPIface.Iface ppp1 = PPPIface.Iface ppp2 ->
  mergeWpa interfaces wpa2 (mergeWpa interfaces wpa1 storedWpa)
  = mergeWpa interfaces wpa2 storedWpa
  /\ mergePPP interfaces ppp2 (mergePPP interfaces ppp1 storedPPP)
     = mergePPP interfaces ppp2 storedPPP.
Proof.
  intros Hw Hp. split.
  - merge_overwrite mergeWpa_nil mergeWpa_cons storedWpa Hw.
  - merge_overwrite mergePPP_nil mergePPP_cons storedPPP Hp.
Qed.

Lemma merge_last_write_wins_witness :
  mergeWpa [] (Scenario.wlan1 false "SAE")
    (mergeWpa [] (Scenario.wlan1 true "WPA-PSK") [Scenario.wlan2])
  = mergeWpa [] (Scenario.wlan1 false "SAE") [Scenario.wlan2].
Proof.
  exact (proj1 (merge_last_write_wins [] (Scenario.wlan1 true "WPA-PSK")
                  (Scenario.wlan1 false "SAE") [Scenario.wlan2]
                  Scenario.alice Scenario.badVlan [] eq_refl eq_refl)).
Defined.

Lemma uplink_enabled_for_one_subtype_at_most_witness :
  isWifiUplinkIfaceEnabled "wlan9" Scenario.bothInterfaces = false
  /\ isPPPUplinkIfaceEnabled "wlan9" Scenario.bothInterfaces = false.
Proof.
  refine (proj1 (uplink_enabled_for_one_subtype_at_most "wlan9" Scenario.bothInterfaces) _).
  repeat constructor; discriminate.
Defined.

Lemma mergeWpa_In interfaces new_wpa (stored : list WPAIface) (r : WPAIface) :
  In r (mergeWpa interfaces new_wpa stored) ->
  r = new_wpa \/ exists s, In s stored /\ r = refreshWpa interfaces s.
Proof.
  induction stored as [|s rest IH].
  - rewrite mergeWpa_nil. destruct (String.eqb _ ""); simpl; [tauto|].
    intros [<-|[]]. now left.
  - rewrite mergeWpa_cons.
    destruct (String.eqb (WPAIface.Iface s) (WPAIface.Iface new_wpa)); simpl.
    + intros [<-|[]]. now left.
    + intros [<-|H].
      * right. exists s. split; [now left|reflexivity].
      * destruct (IH H) as [->|(s' & Hin & ->)]; [now left|].
        right. exists s'. split; [now right|reflexivity].
Qed.

Lemma mergePPP_In interfaces new_ppp (stored : list PPPIface) (r : PPPIface) :
  In r (mergePPP interfaces new_ppp stored) ->
  r = new_ppp \/ exists s, In s stored /\ r = refreshPPP interfaces s.
Proof.
  induction stored as [|s rest IH].
  - rewrite mergePPP_nil. destruct (String.eqb _ ""); simpl; [tauto|].
    intros [<-|[]]. now left.
  - rewrite mergePPP_cons.
    destruct (String.eqb (PPPIface.Iface s) (PPPIface.Iface new_ppp)); simpl.
    + intros [<-|[]]. now left.
    + intros [<-|H].
      * right. exists s. split; [now left|reflexivity].
      * destruct (IH H) as [->|(s' & Hin & ->)]; [now left|].
        right. exists s'. split; [now right|reflexivity].
Qed.

(** X9. After the merge of a record of non-empty name the collection ends
    with the submitted record, and no record before it has its name: the
    name is a key with one record, the submitted one.  Both merges. *)
Theorem merge_leaves_one_record_of_the_name (interfaces : list InterfaceConfig)
    (new_wpa : WPAIface) (storedWpa : list WPAIface)
    (new_ppp : PPPIface) (storedPPP : list PPPIface) :
  WPAIface.Iface new_wpa <> "" ->
  PPPIface.Iface new_ppp <> "" ->
  (exists before,
      mergeWpa interfaces new_wpa storedWpa = before ++ [new_wpa]
      /\ Forall (fun r => WPAIface.Iface r <> WPAIface.Iface new_wpa) before)
  /\ (exists before,
         mergePPP interfaces new_ppp storedPPP = before ++ [new_ppp]
         /\ Forall (fun r => PPPIface.Iface r <> PPPIface.Iface new_ppp) before).
Proof.
  intros Hw Hp. apply String.eqb_neq in Hw, Hp. split.
  - induction storedWpa as [|r rest (before & IH & Hb)].
    + exists []. rewrite mergeWpa_nil, Hw. now split.
    + rewrite mergeWpa_cons.
      destruct (String.eqb_spec (WPAIface.Iface r) (WPAIface.Iface new_wpa)) as [|Hr].
      * exists []. now split.
      * exists (refreshWpa interfaces r :: before). rewrite IH. split; [reflexivity|].
        constructor; [exact Hr|exact Hb].
  - induction storedPPP as [|r rest (before & IH & Hb)].
    + exists []. rewrite mergePPP_nil, Hp. now split.
    + rewrite mergePPP_cons.
      destruct (String.eqb_spec (PPPIface.Iface r) (PPPIface.Iface new_ppp)) as [|Hr].
      * exists []. now split.
      * exists (refreshPPP interfaces r :: before). rewrite IH. split; [reflexivity|].
        constructor; [exact Hr|exact Hb].
Qed.

Lemma merge_leaves_one_record_of_the_name_witness :
  exists before,
    mergeWpa [] (Scenario.wlan1 false "SAE") [Scenario.wlan2; Scenario.wlan1 true "SAE"]
    = before ++ [Scenario.wlan1 false "SAE"]
    /\ Forall (fun r => WPAIface.Iface r <> "wlan1") before.
Proof.
  refine (proj1 (merge_leaves_one_record_of_the_name [] (Scenario.wlan1 false "SAE")
                   [Scenario.wlan2; Scenario.wlan1 true "SAE"]
                   Scenario.alice [] _ _)); discriminate.
Defined.

(** X10. The merge keeps the names distinct: a collection without two
    records of one name is merged into one without two records of one name,
    in the WPA and in the PPP merge. *)
Theorem merge_keeps_names_distinct (interfaces : list InterfaceConfig)
    (new_wpa : WPAIface) (storedWpa : list WPAIface)
    (new_ppp : PPPIface) (storedPPP : list PPPIface) :
  List.NoDup (map WPAIface.Iface storedWpa) ->
  List.NoDup (map PPPIface.Iface storedPPP) ->
  List.NoDup (map WPAIface.Iface (mergeWpa interfaces new_wpa storedWpa))
  /\ List.NoDup (map PPPIface.Iface (mergePPP interfaces new_ppp storedPPP)).
Proof.
  intros Hw Hp. split.
  - induction storedWpa as [|r rest IH].
    + rewrite mergeWpa_nil. destruct (String.eqb _ ""); simpl; repeat constructor; auto.
    + rewrite mergeWpa_cons. inversion Hw as [|? ? Hnot Hrest]; subst.
      destruct (String.eqb_spec (WPAIface.Iface r) (WPAIface.Iface new_wpa)) as [|Hr];
        simpl; [repeat constructor; auto|].
      constructor; [|now apply IH].
      rewrite in_map_iff. intros (x & Hx & Hin).
      apply mergeWpa_In in Hin as [->|(s & Hs & ->)]; [congruence|].
      apply Hnot. rewrite in_map_iff. exists s. now split.
  - induction storedPPP as [|r rest IH].
    + rewrite mergePPP_nil. destruct (String.eqb _ ""); simpl; repeat constructor; auto.
    + rewrite mergePPP_cons. inversion Hp as [|? ? Hnot Hrest]; subst.
      destruct (String.eqb_spec (PPPIface.Iface r) (PPPIface.Iface new_ppp)) as [|Hr];
        simpl; [repeat constructor; auto|].
      constructor; [|now apply IH].
      rewrite in_map_iff. intros (x & Hx & Hin).
      apply mergePPP_In in Hin as [->|(s & Hs & ->)]; [congruence|].
      apply Hnot. rewrite in_map_iff. exists s. now split.
Qed.

Lemma merge_keeps_names_distinct_witness :
  List.NoDup (map WPAIface.Iface
                (mergeWpa [] (Scenario.wlan1 false "SAE")
                   [Scenario.wlan2; Scenario.wlan1 true "SAE"])).
Proof.
  refine (proj1 (merge_keeps_names_distinct [] (Scenario.wlan1 false "SAE")
                   [Scenario.wlan2; Scenario.wlan1 true "SAE"]
                   Scenario.alice [] _ _)).
  - repeat constructor; simpl; intuition discriminate.
  - constructor.
Defined.

(** X11. The merge invents nothing and grows the collection by one record
    at most: a record of the result is the submitted record, or a stored
    record with its name and networks as they were and its Enabled flag as
    [isWifiUplinkIfaceEnabled] gives it from the interface list. *)
Theorem mergeWpa_records (interfaces : list InterfaceConfig) (new_wpa : WPAIface)
    (stored : list WPAIface) :
  Forall (fun r =>
            r = new_wpa
            \/ exists s, In s stored
                 /\ WPAIface.Iface r = WPAIface.Iface s
                 /\ WPAIface.Networks r = WPAIface.Networks s
                 /\ WPAIface.Enabled r
                    = isWifiUplinkIfaceEnabled (WPAIface.Iface s) interfaces)
         (mergeWpa interfaces new_wpa stored)
  /\ length (mergeWpa interfaces new_wpa stored) <= S (length stored).
Proof.
  split.
  - apply Forall_forall. intros r Hr. apply list_elem_of_In in Hr.
    apply mergeWpa_In in Hr as [->|(s & Hs & ->)]; [now left|].
    right. exists s. now repeat split.
  - induction stored as [|s rest IH].
    + rewrite mergeWpa_nil. destruct (String.eqb _ ""); simpl; lia.
    + rewrite mergeWpa_cons. destruct (String.eqb _ _); simpl; simpl in IH; lia.
Qed.

(** ** The WPA file *)

Lemma wpaNetwork_Execute (n : WPANetwork) :
  Execute "wpa_supplicant.conf"
    (Text (nl +:+ "      ")
    (If (Not (Field "Disabled")) wpaNetworkBlock
    (Text (nl +:+ "      ")
    Done)))
    (reflect_WPANetwork n)
  = (wpaNetworkText n, None).
Proof.
  unfold wpaNetworkText, wpaBlockText.
  destruct n as [disabled pw ssid k prio bssid].
  cbv [wpaNetworkBlock reflect_WPANetwork Execute evalPipeline evalField lookupField
       truth printValue WPANetwork.Disabled WPANetwork.Password WPANetwork.SSID
       WPANetwork.KeyMgmt WPANetwork.Priority WPANetwork.BSSID].
  cbn [String.eqb Ascii.eqb Bool.eqb].
  destruct disabled; cbn [negb]; [reflexivity|].
  destruct (String.eqb prio ""), (String.eqb bssid "");
    cbn [negb]; rewrite ?append_nil_r; reflexivity.
Qed.

Lemma wpaNetworks_rangeLoop (networks : list WPANetwork) :
  rangeLoop
    (Execute "wpa_supplicant.conf"
       (Text (nl +:+ "      ")
       (If (Not (Field "Disabled")) wpaNetworkBlock
       (Text (nl +:+ "      ")
       Done))))
    (map reflect_WPANetwork networks)
  = (fold_right String.append "" (map wpaNetworkText networks), None).
Proof.
  induction networks as [|n rest IH]; [reflexivity|].
  cbn [map rangeLoop]. cbn [map rangeLoop] in IH.
  rewrite wpaNetwork_Execute, IH. reflexivity.
Qed.

Lemma wpaTemplate_Execute_text (wpa : WPAIface) :
  Execute "wpa_supplicant.conf" (wpaTemplate (WPAIface.Iface wpa)) (reflect_WPAIface wpa)
  = (wpaText wpa, None).
Proof.
  unfold wpaTemplate, reflect_WPAIface, wpaText.
  cbn [Execute evalPipeline evalField lookupField String.eqb Ascii.eqb Bool.eqb].
  rewrite wpaNetworks_rangeLoop. now rewrite append_nil_r.
Qed.


(** ** [writeWPAs], file by file *)

Lemma length_append (x y : string) :
  String.length (x +:+ y) = String.length x + String.length y.
Proof.
  induction x as [|a x IH]; [reflexivity|].
  change (S (String.length (x +:+ y)) = S (String.length x + String.length y)).
  now rewrite IH.
Qed.

Lemma append_inj_r (z : string) : forall x y, x +:+ z = y +:+ z -> x = y.
Proof.
  induction x as [|a x IH]; intros [|b y] H.
  - reflexivity.
  - apply (f_equal String.length) in H. rewrite !length_append in H.
    simpl in H. lia.
  - apply (f_equal String.length) in H. rewrite !length_append in H.
    simpl in H. lia.
  - change (String a (x +:+ z) = String b (y +:+ z)) in H.
    injection H as -> H. now rewrite (IH y H).
Qed.

Section WriteWPAs.

Context (E : Env).

(** Two records with one path have one name. *)
Lemma wpaConfPath_inj (a b : WPAIface) :
  wpaConfPath E a = wpaConfPath E b -> WPAIface.Iface a = WPAIface.Iface b.
Proof.
  unfold wpaConfPath. intros H.
  apply String.app_inj in H. apply (String.app_inj "/configs/wifi_uplink/wpa_") in H.
  exact (append_inj_r ".conf" _ _ H).
Qed.

Lemma writeWPAs_range_app (before after : list WPAIface) :
  forall w,
    writeWPAs_range E (before ++ after) w =
    match writeWPAs_range E before w with
    | (w', None) => writeWPAs_range E after w'
    | (w', Some err) => (w', Some err)
    end.
Proof.
  induction before as [|wpa rest IH]; intros w; [reflexivity|].
  cbn [app writeWPAs_range].
  destruct (negb (WPAIface.Enabled wpa)); [apply IH|].
  destruct (parseWpaTemplate (WPAIface.Iface wpa)) as [err|tmpl]; [reflexivity|].
  destruct (Execute _ tmpl _) as [result [err|]]; [reflexivity|].
  destruct (WriteFile E _ result w) as [w' [err|]]; [reflexivity|apply IH].
Qed.

(** The step of [writeWPAs] on an enabled record whose name has no template
    delimiter. *)
Lemma writeWPAs_range_enabled (wpa : WPAIface) (rest : list WPAIface) (w : World) :
  WPAIface.Enabled wpa = true ->
  strings_Contains (WPAIface.Iface wpa) "{{" = false ->
  writeWPAs_range E (wpa :: rest) w =
  if writable E (wpaConfPath E wpa)
  then writeWPAs_range E rest
         (set_files (<[wpaConfPath E wpa := wpaText wpa]> (files w)) w)
  else (w, Some (PathError (wpaConfPath E wpa))).
Proof.
  intros He Hd. cbn [writeWPAs_range]. rewrite He. cbn [negb].
  unfold parseWpaTemplate. rewrite Hd, wpaTemplate_Execute_text.
  unfold WriteFile. now destruct (writable E (wpaConfPath E wpa)).
Qed.

Lemma writeWPAs_range_frame (wpas : list WPAIface) (path : string) :
  Forall (fun wpa => WPAIface.Enabled wpa = true -> wpaConfPath E wpa <> path) wpas ->
  forall w, files (fst (writeWPAs_range E wpas w)) !! path = files w !! path.
Proof.
  induction 1 as [|wpa rest Hp _ IH]; intros w; [reflexivity|].
  cbn [writeWPAs_range].
  destruct (WPAIface.Enabled wpa) eqn:He; cbn [negb]; [|apply IH].
  destruct (parseWpaTemplate (WPAIface.Iface wpa)) as [err|tmpl]; [reflexivity|].
  destruct (Execute _ tmpl _) as [result [err|]]; [reflexivity|].
  unfold WriteFile. destruct (writable E (wpaConfPath E wpa)); [|reflexivity].
  rewrite IH. cbn [files set_files]. apply lookup_insert_ne. now apply Hp.
Qed.

(** X13. [writeWPAs] changes no file but the ones of the enabled records: a
    path that is not the path of an enabled record of the collection holds
    after the call what it held before.  In particular the file written
    earlier for an interface that is now disabled stays as it is. *)
Theorem writeWPAs_leaves_other_files (interfaces : list InterfaceConfig)
    (config : WPASupplicantConfig) (w : World) (path : string) :
  Forall (fun wpa => WPAIface.Enabled wpa = true -> wpaConfPath E wpa <> path)
         (WPASupplicantConfig.WPAs config) ->
  files (fst (writeWPAs E interfaces config w)) !! path = files w !! path.
Proof. intros H. unfold writeWPAs. now apply writeWPAs_range_frame. Qed.

(** X14. For a collection with distinct names whose enabled records have
    names without a template delimiter and paths that can be written,
    [writeWPAs] returns no error, and afterwards the file of every enabled
    record holds the text of that record. *)
Theorem writeWPAs_writes_every_enabled_record (interfaces : list InterfaceConfig)
    (config : WPASupplicantConfig) (w : World) :
  List.NoDup (map WPAIface.Iface (WPASupplicantConfig.WPAs config)) ->
  Forall (fun wpa =>
            WPAIface.Enabled wpa = true ->
            strings_Contains (WPAIface.Iface wpa) "{{" = false
            /\ writable E (wpaConfPath E wpa) = true)
         (WPASupplicantConfig.WPAs config) ->
  snd (writeWPAs E interfaces config w) = None
  /\ Forall (fun wpa =>
               WPAIface.Enabled wpa = true ->
               files (fst (writeWPAs E interfaces config w)) !! wpaConfPath E wpa
               = Some (wpaText wpa))
            (WPASupplicantConfig.WPAs config).
Proof.
  unfold writeWPAs. generalize (WPASupplicantConfig.WPAs config) as wpas.
  intros wpas Hnd H. revert w.
  induction H as [|wpa rest Hp Hrest IH]; intros w; [now split|].
  inversion Hnd as [|? ? Hnot Hnd']; subst.
  destruct (WPAIface.Enabled wpa) eqn:He.
  - destruct (Hp eq_refl) as [Hd Hw].
    rewrite (writeWPAs_range_enabled wpa rest w He Hd), Hw.
    destruct (IH Hnd' (set_files (<[wpaConfPath E wpa := wpaText wpa]> (files w)) w))
      as [Hnone Hfiles].
    split; [exact Hnone|]. constructor; [|exact Hfiles].
    intros _.
    rewrite writeWPAs_range_frame.
    + cbn [files set_files]. apply lookup_insert_eq.
    + apply Forall_forall. intros r Hr _ Hpath.
      apply Hnot. rewrite in_map_iff. exists r.
      split; [now apply wpaConfPath_inj|now apply list_elem_of_In].
  - cbn [writeWPAs_range]. rewrite He. cbn [negb].
    destruct (IH Hnd' w) as [Hnone Hfiles].
    split; [exact Hnone|]. constructor; [congruence|exact Hfiles].
Qed.

(** X15. [writeWPAs] stops at the first file it cannot write and undoes
    nothing: the files of the records before it are written, the error is
    the one of that file, and the records after it are not reached. *)
Theorem writeWPAs_stops_at_first_failure (interfaces : list InterfaceConfig)
    (before : list WPAIface) (wpa : WPAIface) (after : list WPAIface) (w : World) :
  snd (writeWPAs E interfaces (WPASupplicantConfig.mk before) w) = None ->
  WPAIface.Enabled wpa = true ->
  strings_Contains (WPAIface.Iface wpa) "{{" = false ->
  writable E (wpaConfPath E wpa) = false ->
  writeWPAs E interfaces (WPASupplicantConfig.mk (before ++ wpa :: after)) w
  = (fst (writeWPAs E interfaces (WPASupplicantConfig.mk before) w),
     Some (PathError (wpaConfPath E wpa))).
Proof.
  unfold writeWPAs. cbn [WPASupplicantConfig.WPAs]. intros Hb He Hd Hw.
  rewrite writeWPAs_range_app.
  destruct (writeWPAs_range E before w) as [w' [err|]]; [discriminate|].
  now rewrite (writeWPAs_range_enabled wpa after w' He Hd), Hw.
Qed.

End WriteWPAs.

Lemma writeWPAs_leaves_other_files_witness :
  files (fst (writeWPAs (Scenario.env [] true) []
                (WPASupplicantConfig.mk [Scenario.wlan1 false "SAE"; Scenario.wlan2])
                Scenario.staleWorld))
  !! "/configs/wifi_uplink/wpa_wlan1.conf"
  = Some "old".
Proof.
  refine (writeWPAs_leaves_other_files (Scenario.env [] true) []
            (WPASupplicantConfig.mk [Scenario.wlan1 false "SAE"; Scenario.wlan2])
            Scenario.staleWorld "/configs/wifi_uplink/wpa_wlan1.conf" _).
  repeat constructor; [discriminate|intros _; vm_compute; discriminate].
Defined.

Lemma writeWPAs_writes_every_enabled_record_witness :
  snd (writeWPAs (Scenario.env [] true) []
         (WPASupplicantConfig.mk [Scenario.wlan1 true "SAE"; Scenario.wlan2])
         Scenario.emptyWorld) = None.
Proof.
  refine (proj1 (writeWPAs_writes_every_enabled_record (Scenario.env [] true) []
                   (WPASupplicantConfig.mk [Scenario.wlan1 true "SAE"; Scenario.wlan2])
                   Scenario.emptyWorld _ _)).
  - repeat constructor; simpl; intuition discriminate.
  - repeat constructor.
Defined.

Lemma writeWPAs_stops_at_first_failure_witness :
  writeWPAs (Scenario.roEnv "/configs/wifi_uplink/wpa_wlan2.conf") []
    (WPASupplicantConfig.mk
       ([Scenario.wlan1 true "SAE"] ++ Scenario.wlan2 :: [Scenario.wlan1NetworkOff]))
    Scenario.emptyWorld
  = (fst (writeWPAs (Scenario.roEnv "/configs/wifi_uplink/wpa_wlan2.conf") []
            (WPASupplicantConfig.mk [Scenario.wlan1 true "SAE"]) Scenario.emptyWorld),
     Some (PathError "/configs/wifi_uplink/wpa_wlan2.conf")).
Proof.
  exact (writeWPAs_stops_at_first_failure
           (Scenario.roEnv "/configs/wifi_uplink/wpa_wlan2.conf") []
           [Scenario.wlan1 true "SAE"] Scenario.wlan2 [Scenario.wlan1NetworkOff]
           Scenario.emptyWorld eq_refl eq_refl eq_refl eq_refl).
Defined.

(** ** The handlers, path by path *)

Lemma insertWpaConfigAndSave_ppp_json (E : Env) interfaces new_wpa w :
  ppp_json (fst (insertWpaConfigAndSave E interfaces new_wpa w)) = ppp_json w.
Proof.
  unfold insertWpaConfigAndSave, writeWPAs.
  destruct (writable E (WpaConfigPath E)); [|reflexivity].
  match goal with |- ppp_json (fst (writeWPAs_range E ?l ?w0)) = _ =>
    destruct (writeWPAs_range_sameButFiles E l w0) as (_ & -> & _) end.
  reflexivity.
Qed.

Lemma insertPPPConfigAndSave_frame (E : Env) interfaces new_ppp w :
  wpa_json (fst (insertPPPConfigAndSave E interfaces new_ppp w)) = wpa_json w
  /\ calls (fst (insertPPPConfigAndSave E interfaces new_ppp w)) = calls w.
Proof.
  unfold insertPPPConfigAndSave.
  destruct (writable E (PPPConfigPath E)); [|now split].
  match goal with |- context [writePPP E ?i ?c ?w0] =>
    destruct (writePPP_sameButFiles E i c w0) as (-> & _ & ->) end.
  now split.
Qed.

(** X16. [insertWpaConfigAndSave] and [insertPPPConfigAndSave] store before
    they render, and take nothing back: when the JSON document can be
    written, the store holds the merged collection after the call whatever
    the rendering returns.  For PPP the rendering returns an error for every
    record of non-empty name, so the caller is told of a failure while the
    record is stored. *)
Theorem insert_stores_before_rendering (E : Env) (interfaces : list InterfaceConfig)
    (new_wpa : WPAIface) (new_ppp : PPPIface) (w : World) :
  writable E (WpaConfigPath E) = true ->
  writable E (PPPConfigPath E) = true ->
  PPPIface.Iface new_ppp <> "" ->
  wpa_json (fst (insertWpaConfigAndSave E interfaces new_wpa w))
  = Some (WPASupplicantConfig.mk (mergeWpa interfaces new_wpa (storedWPAs w)))
  /\ ppp_json (fst (insertPPPConfigAndSave E interfaces new_ppp w))
     = Some (PPPConfig.mk (mergePPP interfaces new_ppp (storedPPPs w)))
  /\ snd (insertPPPConfigAndSave E interfaces new_ppp w) <> None.
Proof.
  intros Hw Hp Hne. split; [|split].
  - now rewrite insertWpaConfigAndSave_stored, Hw.
  - now rewrite insertPPPConfigAndSave_stored, Hp.
  - now apply insertPPPConfigAndSave_fails.
Qed.

Lemma insert_stores_before_rendering_witness :
  ppp_json (fst (insertPPPConfigAndSave (Scenario.env [] true) [] Scenario.alice
                   Scenario.emptyWorld))
  = Some (PPPConfig.mk (mergePPP [] Scenario.alice []))
  /\ snd (insertPPPConfigAndSave (Scenario.env [] true) [] Scenario.alice
            Scenario.emptyWorld) <> None.
Proof.
  refine (proj2 (insert_stores_before_rendering (Scenario.env [] true) []
                   (Scenario.wlan1 true "SAE") Scenario.alice Scenario.emptyWorld
                   eq_refl eq_refl _)).
  discriminate.
Defined.

(** X17. A WPA request that fails the name check or the validation of a
    network is answered with a 400 and has no effect: no call to the
    registry or to the plugin manager, the store and the files as they were. *)
Theorem updateWpaSupplicantConfig_rejects_before_any_effect (E : Env) (wpa : WPAIface)
    (w : World) :
  regexp_MatchString ifacePattern (WPAIface.Iface wpa) = false
  \/ snd (validateNetworks (WPAIface.Networks wpa) false) <> None ->
  fst (updateWpaSupplicantConfig E (inr wpa) w) = w
  /\ exists msg, snd (updateWpaSupplicantConfig E (inr wpa) w) = HttpError msg 400.
Proof.
  intros H. unfold updateWpaSupplicantConfig.
  destruct (regexp_MatchString ifacePattern (WPAIface.Iface wpa)); cbn [negb].
  - destruct H as [H|H]; [discriminate|].
    destruct (validateNetworks (WPAIface.Networks wpa) false) as [enabled [err|]];
      [|now contradiction H].
    split; [reflexivity|eauto].
  - split; [reflexivity|eauto].
Qed.

Lemma updateWpaSupplicantConfig_rejects_before_any_effect_witness :
  fst (updateWpaSupplicantConfig (Scenario.env [] true)
         (inr (WPAIface.mk "wlan1/../x" true [])) Scenario.twoStored)
  = Scenario.twoStored.
Proof.
  refine (proj1 (updateWpaSupplicantConfig_rejects_before_any_effect
                   (Scenario.env [] true) (WPAIface.mk "wlan1/../x" true [])
                   Scenario.twoStored _)).
  left. vm_compute. reflexivity.
Defined.

(** X18. When the interface registry refuses the update, either handler
    answers a 400 with the registry's message, and the call to the registry
    is the only trace: the stores and the files are as they were and the
    plugin manager is not called. *)
Theorem registry_error_stops_the_handlers (E : Env) (wpa : WPAIface) (ppp : PPPIface)
    (w : World) (errWpa errPPP : error) :
  regexp_MatchString ifacePattern (WPAIface.Iface wpa) = true ->
  snd (validateNetworks (WPAIface.Networks wpa) false) = None ->
  registryAnswer E (calls w) (WPAIface.Iface wpa) "Uplink" "wifi" (WPAIface.Enabled wpa)
    = inl errWpa ->
  PPPIface_Validate ppp = None ->
  registryAnswer E (calls w) (PPPIface.Iface ppp) "Uplink" "ppp" (PPPIface.Enabled ppp)
    = inl errPPP ->
  updateWpaSupplicantConfig E (inr wpa) w
  = (add_call (UpdateInterfaceType (WPAIface.Iface wpa) "Uplink" "wifi"
                 (WPAIface.Enabled wpa)) w,
     HttpError (Error errWpa) 400)
  /\ updatePPPConfig E (inr ppp) w
     = (add_call (UpdateInterfaceType (PPPIface.Iface ppp) "Uplink" "ppp"
                    (PPPIface.Enabled ppp)) w,
        HttpError (Error errPPP) 400).
Proof.
  intros Hname Hvalid Hreg Hv Hregp. split.
  - unfold updateWpaSupplicantConfig. rewrite Hname. cbn [negb].
    destruct (validateNetworks (WPAIface.Networks wpa) false) as [enabled verr].
    simpl in Hvalid. subst verr.
    unfold updateInterfaceType. now rewrite Hreg.
  - unfold updatePPPConfig. rewrite Hv.
    unfold updateInterfaceType. now rewrite Hregp.
Qed.

Lemma registry_error_stops_the_handlers_witness :
  updatePPPConfig (Scenario.roEnv "") (inr Scenario.alice) Scenario.emptyWorld
  = (add_call (UpdateInterfaceType "ppp0" "Uplink" "ppp" false) Scenario.emptyWorld,
     HttpError "no such interface" 400).
Proof.
  exact (proj2 (registry_error_stops_the_handlers (Scenario.roEnv "")
                  (Scenario.wlan1 true "SAE") Scenario.alice Scenario.emptyWorld
                  (RegistryError "no such interface") (RegistryError "no such interface")
                  eq_refl eq_refl eq_refl eq_refl eq_refl)).
Defined.

(** X19. A WPA request with no network switched on (every network has
    Disabled true, or there is none) that passes every step asks the plugin
    manager to restart WIFI-UPLINK and does not ask it to enable it. *)
Theorem updateWpaSupplicantConfig_all_disabled_restarts (E : Env) (wpa : WPAIface)
    (w : World) (interfaces : list InterfaceConfig) :
  regexp_MatchString ifacePattern (WPAIface.Iface wpa) = true ->
  snd (validateNetworks (WPAIface.Networks wpa) false) = None ->
  Forall (fun n => WPANetwork.Disabled n = true) (WPAIface.Networks wpa) ->
  registryAnswer E (calls w) (WPAIface.Iface wpa) "Uplink" "wifi" (WPAIface.Enabled wpa)
    = inr interfaces ->
  snd (insertWpaConfigAndSave E interfaces wpa
         (add_call (UpdateInterfaceType (WPAIface.Iface wpa) "Uplink" "wifi"
                      (WPAIface.Enabled wpa)) w)) = None ->
  snd (updateWpaSupplicantConfig E (inr wpa) w) = HttpOK
  /\ calls (fst (updateWpaSupplicantConfig E (inr wpa) w))
     = calls w
       ++ [UpdateInterfaceType (WPAIface.Iface wpa) "Uplink" "wifi" (WPAIface.Enabled wpa);
           RestartPlugin "WIFI-UPLINK"].
Proof.
  intros Hname Hvalid Hoff Hreg Hins.
  unfold updateWpaSupplicantConfig. rewrite Hname. cbn [negb].
  destruct (validateNetworks (WPAIface.Networks wpa) false) as [enabled verr] eqn:Hv.
  simpl in Hvalid. subst verr.
  apply validateNetworks_enabled in Hv. cbn [orb] in Hv.
  assert (enabled = false) as ->.
  { rewrite Hv. clear Hv Hins. induction Hoff as [|n rest Hn _ IH]; [reflexivity|].
    simpl. now rewrite Hn. }
  unfold updateInterfaceType. rewrite Hreg.
  pose proof (insertWpaConfigAndSave_calls E interfaces wpa
                (add_call (UpdateInterfaceType (WPAIface.Iface wpa) "Uplink" "wifi"
                             (WPAIface.Enabled wpa)) w)) as Hcalls.
  destruct (insertWpaConfigAndSave E interfaces wpa _) as [w1 ierr].
  simpl in Hins, Hcalls. subst ierr.
  unfold restartPlugin. cbn [negb fst snd add_call calls].
  split; [reflexivity|]. rewrite Hcalls. cbn [add_call calls].
  now rewrite <- app_assoc.
Qed.

Lemma updateWpaSupplicantConfig_all_disabled_restarts_witness :
  calls (fst (updateWpaSupplicantConfig (Scenario.env [] true)
                (inr Scenario.wlan1NetworkOff) Scenario.emptyWorld))
  = [] ++ [UpdateInterfaceType "wlan1" "Uplink" "wifi" true; RestartPlugin "WIFI-UPLINK"].
Proof.
  refine (proj2 (updateWpaSupplicantConfig_all_disabled_restarts (Scenario.env [] true)
                   Scenario.wlan1NetworkOff Scenario.emptyWorld
                   [InterfaceConfig.mk "wlan1" "Uplink" "wifi" true] _ _ _ _ _)).
  - vm_compute; reflexivity.
  - vm_compute; reflexivity.
  - repeat constructor.
  - reflexivity.
  - vm_compute; reflexivity.
Defined.

(** X20. Whatever the request, [updateWpaSupplicantConfig] calls the
    interface registry once at most and before any call to the plugin
    manager, and the plugin manager is asked to enable, to enable and then
    restart, or to restart: the calls it adds are one of five sequences. *)
Theorem updateWpaSupplicantConfig_call_sequences (E : Env) (wpa : WPAIface) (w : World) :
  exists added,
    calls (fst (updateWpaSupplicantConfig E (inr wpa) w)) = calls w ++ added
    /\ In added
         [ [];
           [UpdateInterfaceType (WPAIface.Iface wpa) "Uplink" "wifi" (WPAIface.Enabled wpa)];
           [UpdateInterfaceType (WPAIface.Iface wpa) "Uplink" "wifi" (WPAIface.Enabled wpa);
            EnablePlugin "WIFI-UPLINK"];
           [UpdateInterfaceType (WPAIface.Iface wpa) "Uplink" "wifi" (WPAIface.Enabled wpa);
            EnablePlugin "WIFI-UPLINK"; RestartPlugin "WIFI-UPLINK"];
           [UpdateInterfaceType (WPAIface.Iface wpa) "Uplink" "wifi" (WPAIface.Enabled wpa);
            RestartPlugin "WIFI-UPLINK"] ].
Proof.
  unfold updateWpaSupplicantConfig.
  destruct (regexp_MatchString ifacePattern (WPAIface.Iface wpa)); cbn [negb];
    [|exists []; split; [now rewrite app_nil_r|simpl; auto]].
  destruct (validateNetworks (WPAIface.Networks wpa) false) as [enabled [verr|]];
    [exists []; split; [now rewrite app_nil_r|simpl; auto]|].
  unfold updateInterfaceType.
  destruct (registryAnswer E _ _ _ _ _) as [err|interfaces];
    [eexists; split; [reflexivity|simpl; auto]|].
  pose proof (insertWpaConfigAndSave_calls E interfaces wpa
                (add_call (UpdateInterfaceType (WPAIface.Iface wpa) "Uplink" "wifi"
                             (WPAIface.Enabled wpa)) w)) as Hcalls.
  destruct (insertWpaConfigAndSave E interfaces wpa _) as [w1 [ierr|]];
    simpl in Hcalls.
  - eexists; split; [exact Hcalls|simpl; auto].
  - unfold enablePlugin, restartPlugin.
    destruct enabled; [destruct (pluginStarted E _ _)|];
      cbn [negb fst snd add_call calls]; rewrite Hcalls; cbn [add_call calls];
      rewrite <- ?app_assoc; eexists; (split; [reflexivity|simpl; auto 6]).
Qed.

(** X21. The two technologies do not touch each other's document: no WPA
    request changes the PPP document, and no PPP request changes the WPA
    document. *)
Theorem handlers_keep_the_other_document (E : Env) (bodyWpa : error + WPAIface)
    (bodyPPP : error + PPPIface) (w : World) :
  ppp_json (fst (updateWpaSupplicantConfig E bodyWpa w)) = ppp_json w
  /\ wpa_json (fst (updatePPPConfig E bodyPPP w)) = wpa_json w.
Proof.
  split.
  - unfold updateWpaSupplicantConfig. destruct bodyWpa as [e|wpa]; [reflexivity|].
    destruct (regexp_MatchString ifacePattern (WPAIface.Iface wpa)); cbn [negb];
      [|reflexivity].
    destruct (validateNetworks (WPAIface.Networks wpa) false) as [enabled [verr|]];
      [reflexivity|].
    unfold updateInterfaceType.
    destruct (registryAnswer E _ _ _ _ _) as [err|interfaces]; [reflexivity|].
    pose proof (insertWpaConfigAndSave_ppp_json E interfaces wpa
                  (add_call (UpdateInterfaceType (WPAIface.Iface wpa) "Uplink" "wifi"
                               (WPAIface.Enabled wpa)) w)) as Hp.
    destruct (insertWpaConfigAndSave E interfaces wpa _) as [w1 [ierr|]];
      simpl in Hp; [exact Hp|].
    unfold enablePlugin, restartPlugin.
    destruct enabled; [destruct (pluginStarted E _ _)|]; exact Hp.
  - unfold updatePPPConfig. destruct bodyPPP as [e|ppp]; [reflexivity|].
    destruct (PPPIface_Validate ppp); [reflexivity|].
    unfold updateInterfaceType.
    destruct (registryAnswer E _ _ _ _ _) as [err|interfaces]; [reflexivity|].
    pose proof (insertPPPConfigAndSave_frame E interfaces ppp
                  (add_call (UpdateInterfaceType (PPPIface.Iface ppp) "Uplink" "ppp"
                               (PPPIface.Enabled ppp)) w)) as [Hw _].
    destruct (insertPPPConfigAndSave E interfaces ppp _) as [w1 [ierr|]];
      simpl in Hw; [exact Hw|].
    unfold enablePlugin, restartPlugin.
    destruct (pluginStarted E _ _); exact Hw.
Qed.

(** X22. [updatePPPConfig] never answers 200 and never reaches the plugin
    manager: whatever the request, the answer is an error, and the one call
    it may add to the log is the update of the interface registry. *)
Theorem updatePPPConfig_never_reaches_the_plugin (E : Env) (body : error + PPPIface)
    (w : World) :
  (exists msg code, snd (updatePPPConfig E body w) = HttpError msg code)
  /\ (calls (fst (updatePPPConfig E body w)) = calls w
      \/ exists ppp,
           body = inr ppp
           /\ calls (fst (updatePPPConfig E body w))
              = calls w ++ [UpdateInterfaceType (PPPIface.Iface ppp) "Uplink" "ppp"
                              (PPPIface.Enabled ppp)]).
Proof.
  unfold updatePPPConfig. destruct body as [e|ppp]; [split; eauto|].
  destruct (PPPIface_Validate ppp) eqn:Hv; [split; eauto|].
  apply PPPIface_Validate_Iface_not_empty in Hv.
  unfold updateInterfaceType.
  destruct (registryAnswer E _ _ _ _ _) as [err|interfaces];
    [split; [eauto|right; exists ppp; now split]|].
  pose proof (insertPPPConfigAndSave_fails E interfaces ppp
                (add_call (UpdateInterfaceType (PPPIface.Iface ppp) "Uplink" "ppp"
                             (PPPIface.Enabled ppp)) w) Hv) as Hf.
  pose proof (insertPPPConfigAndSave_frame E interfaces ppp
                (add_call (UpdateInterfaceType (PPPIface.Iface ppp) "Uplink" "ppp"
                             (PPPIface.Enabled ppp)) w)) as [_ Hc].
  destruct (insertPPPConfigAndSave E interfaces ppp _) as [w1 [ierr|]];
    simpl in Hf, Hc; [|congruence].
  split; [eauto|]. right. exists ppp. now split.
Qed.

(** X23. What was merged is what is read back: after an insert whose JSON
    document could be written, [getWpaSupplicantConfig] and [getPPPConfig]
    answer with the merged collection; and where the document was missing,
    [getWpaSupplicantConfig] answers 400 before the first insert and the
    one-record collection after it. *)
Theorem get_after_insert (E : Env) (interfaces : list InterfaceConfig)
    (new_wpa : WPAIface) (new_ppp : PPPIface) (w : World) :
  writable E (WpaConfigPath E) = true ->
  writable E (PPPConfigPath E) = true ->
  getWpaSupplicantConfig E (fst (insertWpaConfigAndSave E interfaces new_wpa w))
  = GetJSON (WPASupplicantConfig.mk (mergeWpa interfaces new_wpa (storedWPAs w)))
  /\ getPPPConfig E (fst (insertPPPConfigAndSave E interfaces new_ppp w))
     = GetJSON (PPPConfig.mk (mergePPP interfaces new_ppp (storedPPPs w)))
  /\ (wpa_json w = None ->
      WPAIface.Iface new_wpa <> "" ->
      getWpaSupplicantConfig E w = GetError "Failed to load wpa configuration" 400
      /\ getWpaSupplicantConfig E (fst (insertWpaConfigAndSave E interfaces new_wpa w))
         = GetJSON (WPASupplicantConfig.mk [new_wpa])).
Proof.
  intros Hw Hp.
  assert (getWpaSupplicantConfig E (fst (insertWpaConfigAndSave E interfaces new_wpa w))
          = GetJSON (WPASupplicantConfig.mk (mergeWpa interfaces new_wpa (storedWPAs w))))
    as Hget.
  { unfold getWpaSupplicantConfig, loadWpaConfig, loadWpaConfigLocked.
    now rewrite insertWpaConfigAndSave_stored, Hw. }
  split; [exact Hget|]. split.
  - unfold getPPPConfig, loadPPPConfig, loadPPPConfigLocked.
    now rewrite insertPPPConfigAndSave_stored, Hp.
  - intros Hnone Hne. split.
    + unfold getWpaSupplicantConfig, loadWpaConfig, loadWpaConfigLocked.
      now rewrite Hnone.
    + rewrite Hget. unfold storedWPAs. rewrite Hnone, mergeWpa_nil.
      apply String.eqb_neq in Hne. now rewrite Hne.
Qed.

Lemma get_after_insert_witness :
  getWpaSupplicantConfig (Scenario.env [] true)
    (fst (insertWpaConfigAndSave (Scenario.env [] true) [] (Scenario.wlan1 true "SAE")
            Scenario.emptyWorld))
  = GetJSON (WPASupplicantConfig.mk [Scenario.wlan1 true "SAE"]).
Proof.
  refine (proj2 (proj2 (proj2 (get_after_insert (Scenario.env [] true) []
                                 (Scenario.wlan1 true "SAE") Scenario.alice
                                 Scenario.emptyWorld eq_refl eq_refl)) eq_refl _)).
  discriminate.
Defined.

(** X24. A WPA request answered with 200 has an interface name made of
    letters, digits and dots, and no newline in any field of any of its
    networks: what goes into the path and the text of the generated file
    cannot leave the directory or start a line of its own. *)
Theorem updateWpaSupplicantConfig_accepted_is_clean (E : Env) (wpa : WPAIface) (w : World) :
  snd (updateWpaSupplicantConfig E (inr wpa) w) = HttpOK ->
  Forall (fun c => ifaceByte c = true) (list_ascii_of_string (WPAIface.Iface wpa))
  /\ Forall (fun n =>
               newlineFree (WPANetwork.Password n)
               /\ newlineFree (WPANetwork.SSID n)
               /\ newlineFree (WPANetwork.Priority n)
               /\ newlineFree (WPANetwork.BSSID n)
               /\ newlineFree (WPANetwork.KeyMgmt n))
            (WPAIface.Networks wpa).
Proof.
  unfold updateWpaSupplicantConfig.
  destruct (regexp_MatchString ifacePattern (WPAIface.Iface wpa)) eqn:Hname;
    cbn [negb]; [|discriminate].
  destruct (validateNetworks (WPAIface.Networks wpa) false) as [enabled [verr|]] eqn:Hv;
    [discriminate|].
  intros _. split; [now apply ifacePattern_bytes|].
  apply (validateNetworks_newlineFree_range (WPAIface.Networks wpa) false).
  now rewrite Hv.
Qed.

Lemma updateWpaSupplicantConfig_accepted_is_clean_witness :
  Forall (fun c => ifaceByte c = true) (list_ascii_of_string "wlan1").
Proof.
  refine (proj1 (updateWpaSupplicantConfig_accepted_is_clean (Scenario.env [] true)
                   (Scenario.wlan1 true "SAE") Scenario.emptyWorld _)).
  vm_compute. reflexivity.
Defined.
